(** * CRL maintenance of the client-VPN PKI manager

    A shallow embedding of [pkg/operations/crl.go] ([GetCRL], [UpdateCRL],
    [RotateCRL]) together with the collaborators it talks to: the Vault PKI
    mount (user enumeration, revocation, CRL export and rotation) and the AWS
    Client VPN endpoint (export and import of the installed CRL).

    Go values are modelled as the code has them: a [[]byte] is a
    [list byte] (the nil slice is the empty list), a Go [string] is a
    [string], an [error] is an optional message ([None] is [nil]), a [*string]
    field of an SDK output is an [option string], and a function returning
    [(T, error)] returns a pair.  Every call that leaves the process is
    recorded as an [Event], so that "no push was attempted" is a statement
    about the events of a run. *)

From Stdlib Require Import List Bool ZArith Lia.
From Stdlib Require Import Strings.String Strings.Ascii Strings.Byte.
Import ListNotations.
Local Open Scope string_scope.
Local Open Scope list_scope.

(** ** Go values *)

(** A Go [error]: [None] is [nil], [Some msg] a non-nil error. *)
Definition error : Type := option string.

(** [string(b)] for [b : []byte]: the same bytes, as a string. *)
Definition string_of_bytes (b : list byte) : string := string_of_list_byte b.

(** ** Data model *)

(** Modelled from the spec: the [Certificate] type is declared outside
    [crl.go].  A certificate identifier is an opaque handle that carries an
    issuance timestamp. *)
Record Certificate : Type := {
  Identifier : string;
  IssuedAt : Z
}.

(** The value [ListUsers] returns: for each user the sequence of their
    certificates.  The list order is the order in which [range] visits the
    users. *)
Definition Users : Type := list (string * list Certificate).

Record ListUsersRequest : Type := {
  lu_VaultPKIPath : string;
  lu_ClientVPNEndpointID : string
}.

Record GetCRLRequest : Type := {
  gc_VaultPKIPath : string
}.

Record UpdateCRLRequest : Type := {
  VaultPKIPath : string;
  ClientVPNEndpointID : string
}.

Record RotateCRLRequest : Type := {
  rc_VaultPKIPath : string;
  rc_ClientVPNEndpointID : string
}.

(** A request built by [Client.NewRequest(method, path)]: [Path] is the
    path as it is handed to [NewRequest].  The client joins it to its
    address and cleans it before the request goes out, so the path on the
    wire can differ from this string (an empty or slash-terminated mount
    path, dot segments); a cleaned path keeps its last two segments, which
    is all the PKI mount is asked about here. *)
Record Request : Type := {
  Method : string;
  Path : string
}.

(** A response whose [Body], read to its end, yields some bytes and possibly
    a read error (what [ioutil.ReadAll] returns). *)
Record Response : Type := {
  Body : list byte * error
}.

(** [ec2.ExportClientVpnClientCertificateRevocationListOutput]: the
    [CertificateRevocationList] field is a [*string], nil when no CRL was
    ever imported into the endpoint. *)
Record ExportOutput : Type := {
  CertificateRevocationList : option string
}.

(** ** The outside world *)

Inductive Event : Type :=
| EvListUsers (req : ListUsersRequest) (err : error)
| EvRevoke (pki : string) (id : string) (err : error)
| EvRawRequest (req : Request) (err : error)
| EvReadAll (err : error)
| EvBodyClose
| EvExport (endpoint : string) (err : error)
| EvImport (endpoint : string) (crl : string) (err : error)
| EvLog (msg : string).

(** The state of the two collaborators.  The [*_error] fields say which
    calls the collaborator rejects; [vault_revoke_error] is asked with the
    identifiers revoked so far, so that the PKI mount may reject the
    revocation of a certificate that is revoked already; [vault_body] is
    the body the PKI mount serves for a request, as a function of the
    revoked identifiers and of the CRL number. *)
Record World : Type := {
  vault_users : ListUsersRequest -> Users * error;
  vault_revoked : list string;
  vault_revoke_error : list string -> string -> string -> error;
  vault_crl_number : nat;
  vault_request_error : Request -> error;
  vault_body : Request -> list string -> nat -> list byte * error;
  cvpn_crl : string -> option string;
  cvpn_export_error : string -> error;
  cvpn_import_error : string -> string -> error
}.

Definition set_vault_revoked (l : list string) (w : World) : World :=
  {| vault_users := vault_users w;
     vault_revoked := l;
     vault_revoke_error := vault_revoke_error w;
     vault_crl_number := vault_crl_number w;
     vault_request_error := vault_request_error w;
     vault_body := vault_body w;
     cvpn_crl := cvpn_crl w;
     cvpn_export_error := cvpn_export_error w;
     cvpn_import_error := cvpn_import_error w |}.

Definition set_vault_crl_number (n : nat) (w : World) : World :=
  {| vault_users := vault_users w;
     vault_revoked := vault_revoked w;
     vault_revoke_error := vault_revoke_error w;
     vault_crl_number := n;
     vault_request_error := vault_request_error w;
     vault_body := vault_body w;
     cvpn_crl := cvpn_crl w;
     cvpn_export_error := cvpn_export_error w;
     cvpn_import_error := cvpn_import_error w |}.

Definition set_cvpn_crl (endpoint crl : string) (w : World) : World :=
  {| vault_users := vault_users w;
     vault_revoked := vault_revoked w;
     vault_revoke_error := vault_revoke_error w;
     vault_crl_number := vault_crl_number w;
     vault_request_error := vault_request_error w;
     vault_body := vault_body w;
     cvpn_crl := fun e => if (e =? endpoint)%string then Some crl else cvpn_crl w e;
     cvpn_export_error := cvpn_export_error w;
     cvpn_import_error := cvpn_import_error w |}.

(** ** The monad of the operations

    A computation takes the world and either returns a value, a new world
    and the events it produced, or panics (a nil dereference). *)
Inductive Run (A : Type) : Type :=
| Returned (a : A) (w : World) (evs : list Event)
| Panicked (w : World) (evs : list Event).
Arguments Returned {A} a w evs.
Arguments Panicked {A} w evs.

Definition M (A : Type) : Type := World -> Run A.

Definition ret {A : Type} (a : A) : M A := fun w => Returned a w [].

Definition bind {A B : Type} (m : M A) (f : A -> M B) : M B := fun w =>
  match m w with
  | Returned a w1 e1 =>
      match f a w1 with
      | Returned b w2 e2 => Returned b w2 (e1 ++ e2)
      | Panicked w2 e2 => Panicked w2 (e1 ++ e2)
      end
  | Panicked w1 e1 => Panicked w1 e1
  end.

Definition panic {A : Type} : M A := fun w => Panicked w [].

Declare Scope go_scope.
Delimit Scope go_scope with go.
Notation "x <- c1 ;; c2" := (bind c1 (fun x => c2))
  (at level 100, c1 at next level, right associativity) : go_scope.
Notation "' pat <- c1 ;; c2" := (bind c1 (fun x => match x with pat => c2 end))
  (at level 100, pat pattern, c1 at next level, right associativity) : go_scope.
Notation "c1 ;; c2" := (bind c1 (fun _ => c2))
  (at level 100, right associativity) : go_scope.
Local Open Scope go_scope.

(** ** Calls to the collaborators *)

(** [fmt.Sprintf("/v1/%s/crl/pem", p)] and [fmt.Sprintf("/v1/%s/crl/rotate", p)]:
    the strings handed to [Client.NewRequest]. *)
Definition crl_pem_path (p : string) : string := "/v1/" ++ p ++ "/crl/pem".
Definition crl_rotate_path (p : string) : string := "/v1/" ++ p ++ "/crl/rotate".

(** [ends_with suf s]: [s] ends with [suf]. *)
Fixpoint ends_with (suf s : string) : bool :=
  (s =? suf)%string ||
  match s with
  | EmptyString => false
  | String _ s' => ends_with suf s'
  end.

(** The PKI mount regenerates its CRL when the rotate endpoint is hit. *)
Definition is_rotate (req : Request) : bool := ends_with "/crl/rotate" (Path req).

(** [Client.RawRequest(req)]: fails when the mount rejects the request or
    cannot be reached; otherwise answers with the body it serves for the
    request, after rotating the CRL if the request asks for it. *)
Definition RawRequest (req : Request) : M (option Response * error) := fun w =>
  match vault_request_error w req with
  | Some e => Returned (None, Some e) w [EvRawRequest req (Some e)]
  | None =>
      let w' := if is_rotate req
                then set_vault_crl_number (S (vault_crl_number w)) w
                else w in
      Returned
        (Some {| Body := vault_body w' req (vault_revoked w') (vault_crl_number w') |}, None)
        w' [EvRawRequest req None]
  end.

(** [ioutil.ReadAll(rsp.Body)]. *)
Definition ReadAll (body : list byte * error) : M (list byte * error) := fun w =>
  Returned body w [EvReadAll (snd body)].

(** [rsp.Body.Close()]. *)
Definition BodyClose : M unit := fun w => Returned tt w [EvBodyClose].

(** [log.Println(msg)]. *)
Definition logPrintln (msg : string) : M unit := fun w => Returned tt w [EvLog msg].

(** [ListUsers]: declared outside [crl.go]; here the enumeration call of the
    PKI mount. *)
Definition ListUsers (req : ListUsersRequest) : M (Users * error) := fun w =>
  Returned (vault_users w req) w [EvListUsers req (snd (vault_users w req))].

(** [svc.ExportClientVpnClientCertificateRevocationList]. *)
Definition ExportClientVpnClientCertificateRevocationList (endpoint : string)
  : M (ExportOutput * error) := fun w =>
  match cvpn_export_error w endpoint with
  | Some e =>
      Returned ({| CertificateRevocationList := None |}, Some e) w
               [EvExport endpoint (Some e)]
  | None =>
      Returned ({| CertificateRevocationList := cvpn_crl w endpoint |}, None) w
               [EvExport endpoint None]
  end.

(** [svc.ImportClientVpnClientCertificateRevocationList]: on success the
    endpoint's CRL is overwritten. *)
Definition ImportClientVpnClientCertificateRevocationList (crl endpoint : string)
  : M error := fun w =>
  match cvpn_import_error w endpoint crl with
  | Some e => Returned (Some e) w [EvImport endpoint crl (Some e)]
  | None => Returned None (set_cvpn_crl endpoint crl w) [EvImport endpoint crl None]
  end.

(** [*p] for [p : *string]: a nil pointer panics. *)
Definition deref (p : option string) : M string :=
  match p with
  | Some s => ret s
  | None => panic
  end.

(** [reflect.ValueOf(out).FieldByName(f).Elem().IsValid()] on a pointer
    field: false exactly for the nil pointer. *)
Definition elemIsValid (p : option string) : bool :=
  match p with
  | Some _ => true
  | None => false
  end.

(** ** Revocation of one user's certificates *)

Definition is_revoked (w : World) (id : string) : bool :=
  existsb (String.eqb id) (vault_revoked w).

(** Modelled from the spec: the revoke call of the PKI service.  Whether
    the call is rejected may depend on what is revoked already (a
    certificate not found, or revoked before).  A rejected call changes
    nothing; an accepted one puts the identifier in the revoked set. *)
Definition revokeCertificate (pki : string) (c : Certificate) : M error := fun w =>
  match vault_revoke_error w (vault_revoked w) pki (Identifier c) with
  | Some e => Returned (Some e) w [EvRevoke pki (Identifier c) (Some e)]
  | None =>
      Returned None
        (if is_revoked w (Identifier c) then w
         else set_vault_revoked (Identifier c :: vault_revoked w) w)
        [EvRevoke pki (Identifier c) None]
  end.

(** Modelled from the spec: the certificate judged latest, the one with the
    greatest issuance timestamp; among equal timestamps the last of the
    enumerator's order. *)
Fixpoint latest (crts : list Certificate) : option Certificate :=
  match crts with
  | [] => None
  | c :: rest =>
      match latest rest with
      | None => Some c
      | Some l => if (IssuedAt l <? IssuedAt c)%Z then Some c else Some l
      end
  end.

(** Certificates to revoke for one user: all of them, or all but the latest. *)
Definition toRevoke (crts : list Certificate) (revokeAll : bool) : list Certificate :=
  if revokeAll then crts
  else match latest crts with
       | None => []
       | Some l => filter (fun c => negb (Identifier c =? Identifier l)%string) crts
       end.

Fixpoint revokeEach (pki : string) (crts : list Certificate) : M error :=
  match crts with
  | [] => ret None
  | c :: rest =>
      err <- revokeCertificate pki c ;;
      match err with
      | Some e => ret (Some e)
      | None => revokeEach pki rest
      end
  end.

(** Modelled from the spec: [revokeUserCertificates] is defined outside
    [crl.go].  For an empty list nothing is done; otherwise every
    certificate but the latest is revoked (every certificate when
    [revokeAll] is set), one revoke call per certificate, and the first
    failing call aborts the run with its error. *)
Definition revokeUserCertificates (pki : string) (crts : list Certificate)
  (revokeAll : bool) : M error :=
  revokeEach pki (toRevoke crts revokeAll).

(** ** The operations of [crl.go] *)

(** [GetCRL]: the CRL of the PKI mount, PEM encoded. *)
Definition GetCRL (r : GetCRLRequest) : M (list byte * error) :=
  let req := {| Method := "GET"; Path := crl_pem_path (gc_VaultPKIPath r) |} in
  '(rsp, err) <- RawRequest req ;;
  match err, rsp with
  | Some e, _ => ret ([], Some e)
  | None, None => panic
  | None, Some rsp =>
      '(data, err) <- ReadAll (Body rsp) ;;
      BodyClose ;;
      ret (data, None)
  end.

(** The loop of [UpdateCRL] over the enumerated users: each user's
    certificates are handed to [revokeUserCertificates] with [revokeAll]
    false, and the first error leaves the loop (and the function). *)
Fixpoint rangeUsers (pki : string) (users : Users) : M error :=
  match users with
  | [] => ret None
  | (_, crts) :: rest =>
      err <- revokeUserCertificates pki crts false ;;
      match err with
      | Some e => ret (Some e)
      | None => rangeUsers pki rest
      end
  end.

(** [UpdateCRL]: keeps one active certificate per user, then brings the
    endpoint's CRL in line with the PKI mount's.  The error of [GetCRL] is
    assigned and then overwritten by the export call without being looked
    at, as in the source. *)
Definition UpdateCRL (r : UpdateCRLRequest) : M (list byte * error) :=
  '(users, err) <- ListUsers {| lu_VaultPKIPath := VaultPKIPath r;
                                lu_ClientVPNEndpointID := ClientVPNEndpointID r |} ;;
  match err with
  | Some e => ret ([], Some e)
  | None =>
  err <- rangeUsers (VaultPKIPath r) users ;;
  match err with
  | Some e => ret ([], Some e)
  | None =>
  '(crl, _) <- GetCRL {| gc_VaultPKIPath := VaultPKIPath r |} ;;
  '(cvpnCRL, err) <- ExportClientVpnClientCertificateRevocationList (ClientVPNEndpointID r) ;;
  match err with
  | Some e => ret ([], Some e)
  | None =>
  if elemIsValid (CertificateRevocationList cvpnCRL) then
    installed <- deref (CertificateRevocationList cvpnCRL) ;;
    if negb (installed =? string_of_bytes crl)%string then
      err <- ImportClientVpnClientCertificateRevocationList
               (string_of_bytes crl) (ClientVPNEndpointID r) ;;
      match err with
      | Some e => ret ([], Some e)
      | None =>
          logPrintln "Updated CRL in AWS Client VPN endpoint" ;;
          ret (crl, None)
      end
    else
      logPrintln "CRL does not need to be updated" ;;
      ret (crl, None)
  else
    err <- ImportClientVpnClientCertificateRevocationList
             (string_of_bytes crl) (ClientVPNEndpointID r) ;;
    logPrintln "First upload of CRL to the CPN endpoint" ;;
    match err with
    | Some e => ret ([], Some e)
    | None => ret (crl, None)
    end
  end end end.

(** [RotateCRL]: asks the PKI mount to rotate its CRL, then runs
    [UpdateCRL]. *)
Definition RotateCRL (r : RotateCRLRequest) : M error :=
  let req := {| Method := "GET"; Path := crl_rotate_path (rc_VaultPKIPath r) |} in
  '(_, err) <- RawRequest req ;;
  match err with
  | Some e => ret (Some e)
  | None =>
      '(_, err) <- UpdateCRL {| VaultPKIPath := rc_VaultPKIPath r;
                                ClientVPNEndpointID := rc_ClientVPNEndpointID r |} ;;
      match err with
      | Some e => ret (Some e)
      | None => ret None
      end
  end.

(** ** Reading the events of a run *)

Definition is_import (e : Event) : bool :=
  match e with EvImport _ _ _ => true | _ => false end.

Definition is_revoke (e : Event) : bool :=
  match e with EvRevoke _ _ _ => true | _ => false end.

Definition is_gateway (e : Event) : bool :=
  match e with EvExport _ _ | EvImport _ _ _ => true | _ => false end.

Definition is_request (e : Event) : bool :=
  match e with EvRawRequest _ _ => true | _ => false end.

(** The import calls among some events. *)
Definition imports (evs : list Event) : list Event := filter is_import evs.

(** The users' certificates that are not revoked in a world. *)
Definition live (w : World) (crts : list Certificate) : list Certificate :=
  filter (fun c => negb (is_revoked w (Identifier c))) crts.

(** All certificate identifiers of an enumeration. *)
Definition all_ids (users : Users) : list string :=
  flat_map (fun u => map Identifier (snd u)) users.

Definition result {A : Type} (r : Run A) : option A :=
  match r with Returned a _ _ => Some a | Panicked _ _ => None end.

Definition events {A : Type} (r : Run A) : list Event :=
  match r with Returned _ _ e => e | Panicked _ e => e end.

Definition final {A : Type} (r : Run A) : World :=
  match r with Returned _ w _ => w | Panicked w _ => w end.

(** The requests [UpdateCRL] builds from its own. *)
Definition listUsersRequest (r : UpdateCRLRequest) : ListUsersRequest :=
  {| lu_VaultPKIPath := VaultPKIPath r;
     lu_ClientVPNEndpointID := ClientVPNEndpointID r |}.

Definition getCRLRequest (r : UpdateCRLRequest) : GetCRLRequest :=
  {| gc_VaultPKIPath := VaultPKIPath r |}.

Definition pemRequest (pki : string) : Request :=
  {| Method := "GET"; Path := crl_pem_path pki |}.

Definition rotateRequest (pki : string) : Request :=
  {| Method := "GET"; Path := crl_rotate_path pki |}.

Definition updateRequest (r : RotateCRLRequest) : UpdateCRLRequest :=
  {| VaultPKIPath := rc_VaultPKIPath r;
     ClientVPNEndpointID := rc_ClientVPNEndpointID r |}.

(** [w'] differs from [w] at most in the revoked set. *)
Definition revocation_frame (w w' : World) : Prop :=
  vault_users w' = vault_users w /\
  vault_revoke_error w' = vault_revoke_error w /\
  vault_crl_number w' = vault_crl_number w /\
  vault_request_error w' = vault_request_error w /\
  vault_body w' = vault_body w /\
  cvpn_crl w' = cvpn_crl w /\
  cvpn_export_error w' = cvpn_export_error w /\
  cvpn_import_error w' = cvpn_import_error w.

(** An invocation gets as far as the comparison: enumeration and the
    revocation loop succeeded, [GetCRL] handed back [crl], and the endpoint
    answered the export call with [out].  [w4] is the world at that point
    and [pre] the events so far. *)
Definition reaches_diff (r : UpdateCRLRequest) (w : World) (crl : list byte)
  (out : ExportOutput) (w4 : World) (pre : list Event) : Prop :=
  exists users w2 ev2 gerr w3 ev3 ev4,
    vault_users w (listUsersRequest r) = (users, None) /\
    rangeUsers (VaultPKIPath r) users w = Returned None w2 ev2 /\
    GetCRL (getCRLRequest r) w2 = Returned (crl, gerr) w3 ev3 /\
    ExportClientVpnClientCertificateRevocationList (ClientVPNEndpointID r) w3
      = Returned (out, None) w4 ev4 /\
    pre = EvListUsers (listUsersRequest r) None :: ev2 ++ ev3 ++ ev4.

(** The certificates the loop of [UpdateCRL] asks to revoke. *)
Definition targets (users : Users) : list Certificate :=
  flat_map (fun u => toRevoke (snd u) false) users.

(** The last character of a string. *)
Fixpoint last_ascii (s : string) : option ascii :=
  match s with
  | EmptyString => None
  | String c s' =>
      match s' with
      | EmptyString => Some c
      | String _ _ => last_ascii s'
      end
  end.

(** What [UpdateCRL] returns after an import call that answered [err]. *)
Definition after_import (crl : list byte) (err : error) : list byte * error :=
  match err with
  | Some e => ([], Some e)
  | None => (crl, None)
  end.

(** The world once the PKI mount has rotated its CRL. *)
Definition rotated (w : World) : World :=
  set_vault_crl_number (S (vault_crl_number w)) w.

(** The reading "exactly one live certificate per user, the latest": after
    a successful [UpdateCRL], the live certificates of every user who has
    some are the latest one alone. *)
Definition one_live_certificate_each (r : UpdateCRLRequest) (w : World) : Prop :=
  forall users crl w' evs,
    vault_users w (listUsersRequest r) = (users, None) ->
    UpdateCRL r w = Returned (crl, None) w' evs ->
    forall u crts, In (u, crts) users -> crts <> [] ->
    exists l, latest crts = Some l /\ live w' crts = [l].



(** ** Sample worlds

    Concrete states of the two collaborators, on which the operations are
    run. *)

Definition no_error1 {A : Type} : A -> error := fun _ => None.
Definition no_error2 {A B : Type} : A -> B -> error := fun _ _ => None.
Definition no_error3 {A B C : Type} : A -> B -> C -> error := fun _ _ _ => None.

Definition cert (id : string) (t : Z) : Certificate :=
  {| Identifier := id; IssuedAt := t |}.

Definition pem (revoked : list string) (n : nat) : list byte :=
  list_byte_of_string (String.concat "," revoked) ++ repeat "#"%byte n.

Definition alice : string * list Certificate := ("alice", [cert "a1" 1; cert "a2" 5]).
Definition bob : string * list Certificate := ("bob", [cert "b1" 2; cert "b2" 6]).
Definition carol : string * list Certificate := ("carol", [cert "c1" 3; cert "c2" 7]).

Definition req0 : UpdateCRLRequest :=
  {| VaultPKIPath := "pki"; ClientVPNEndpointID := "cvpn-1" |}.

Definition rotate0 : RotateCRLRequest :=
  {| rc_VaultPKIPath := "pki"; rc_ClientVPNEndpointID := "cvpn-1" |}.

(** A healthy deployment: alice has two certificates, bob one; nothing is
    revoked and no CRL was ever imported into the endpoint. *)
Definition world0 : World :=
  {| vault_users := fun _ =>
       ([("alice", [cert "a1" 1; cert "a2" 5]); ("bob", [cert "b1" 3])], None);
     vault_revoked := [];
     vault_revoke_error := no_error3;
     vault_crl_number := 0;
     vault_request_error := no_error1;
     vault_body := fun _ revoked n => (pem revoked n, None);
     cvpn_crl := fun _ => None;
     cvpn_export_error := no_error1;
     cvpn_import_error := no_error2 |}.

(** [world0] once alice's older certificate is revoked, and once the
    resulting CRL is installed in the endpoint. *)
Definition world0_converged : World := set_vault_revoked ["a1"] world0.
Definition world0_synced : World := set_cvpn_crl "cvpn-1" "a1" world0_converged.

(** The calls of a run on [world0] (or on a world that differs from it in
    the revoked set and the installed CRL only) up to the comparison. *)
Definition calls0 : list Event :=
  [EvListUsers (listUsersRequest req0) None;
   EvRevoke "pki" "a1" None;
   EvRawRequest (pemRequest "pki") None; EvReadAll None; EvBodyClose;
   EvExport "cvpn-1" None].

(** [world0] after bob was deprovisioned: his only certificate was revoked
    by a run of [revokeUserCertificates] with [revokeAll] set. *)
Definition world_deprovisioned : World :=
  final (revokeUserCertificates "pki" [cert "b1" 3] true world0).

(** The enumeration of users is refused. *)
Definition world_enum_down : World :=
  Build_World (fun _ => ([], Some "permission denied"))
    [] no_error3 0 no_error1 (fun _ revoked n => (pem revoked n, None))
    (fun _ => None) no_error1 no_error2.

(** Three users with two certificates each; the PKI mount rejects the
    revocation of bob's older certificate. *)
Definition world_revoke_rejected : World :=
  Build_World (fun _ => ([alice; bob; carol], None))
    [] (fun _ _ id => if (id =? "b1")%string then Some "certificate not found" else None)
    0 no_error1 (fun _ revoked n => (pem revoked n, None))
    (fun _ => Some "OLD") no_error1 no_error2.

(** The CRL endpoint of the PKI mount cannot be reached; the VPN endpoint
    holds an earlier CRL. *)
Definition world_fetch_down : World :=
  Build_World (fun _ => ([alice], None))
    [] no_error3 0
    (fun req => if (Path req =? "/v1/pki/crl/pem")%string
                then Some "connection refused" else None)
    (fun _ revoked n => (pem revoked n, None))
    (fun _ => Some "OLD") no_error1 no_error2.

(** The CRL request is answered, but the connection drops while the body is
    read: only the first bytes arrive, with a read error. *)
Definition world_read_fails : World :=
  Build_World (fun _ => ([alice], None))
    [] no_error3 0 no_error1
    (fun _ _ _ => (list_byte_of_string "-----BEGIN X5", Some "unexpected EOF"))
    (fun _ => Some "OLD") no_error1 no_error2.

(** Nobody holds a certificate and the endpoint's installed CRL is the empty
    string. *)
Definition world_empty_installed : World :=
  Build_World (fun _ => ([], None))
    [] no_error3 0 no_error1 (fun _ revoked n => (pem revoked n, None))
    (fun _ => Some "") no_error1 no_error2.

(** The rotate endpoint of the PKI mount is refused. *)
Definition world_rotate_down : World :=
  Build_World (fun _ => ([alice], None))
    [] no_error3 0
    (fun req => if (Path req =? "/v1/pki/crl/rotate")%string
                then Some "permission denied" else None)
    (fun _ revoked n => (pem revoked n, None))
    (fun _ => Some "OLD") no_error1 no_error2.

(** The VPN endpoint refuses every import. *)
Definition world_push_rejected : World :=
  Build_World (fun _ => ([alice], None))
    [] no_error3 0 no_error1
    (fun _ revoked n => (pem revoked n, None))
    (fun _ => Some "OLD") no_error1 (fun _ _ => Some "InvalidParameterValue").

(** ** More readings of the events *)

Definition is_log (e : Event) : bool :=
  match e with EvLog _ => true | _ => false end.

Definition is_close (e : Event) : bool :=
  match e with EvBodyClose => true | _ => false end.

Definition is_read (e : Event) : bool :=
  match e with EvReadAll _ => true | _ => false end.

(** A [RawRequest] call that handed a response to the caller.  The
    enumeration and the revoke calls are answered by the PKI mount too, but
    they hand no response body to [crl.go] and are not counted here. *)
Definition is_answered (e : Event) : bool :=
  match e with EvRawRequest _ None => true | _ => false end.

(** The line [UpdateCRL] logs at the end of a run that got through, by the
    branch taken at the comparison. *)
Definition branch_line (installed : option string) (pushed : string) : string :=
  match installed with
  | None => "First upload of CRL to the CPN endpoint"
  | Some s =>
      if (s =? pushed)%string then "CRL does not need to be updated"
      else "Updated CRL in AWS Client VPN endpoint"
  end.

(** The lines logged around a rejected import: the first-upload branch logs
    before it looks at the error, the update branch only after. *)
Definition lines_after_rejected_import (installed : option string) : list Event :=
  match installed with
  | None => [EvLog "First upload of CRL to the CPN endpoint"]
  | Some _ => []
  end.

(** The VPN endpoint cannot be read. *)
Definition world_export_down : World :=
  Build_World (fun _ => ([alice], None))
    [] no_error3 0 no_error1 (fun _ revoked n => (pem revoked n, None))
    (fun _ => Some "OLD") (fun _ => Some "RequestLimitExceeded") no_error2.

(** No CRL was ever imported, and the VPN endpoint refuses every import. *)
Definition world_first_push_rejected : World :=
  Build_World (fun _ => ([alice], None))
    [] no_error3 0 no_error1 (fun _ revoked n => (pem revoked n, None))
    (fun _ => None) no_error1 (fun _ _ => Some "InvalidParameterValue").

(** Two users whose lists share an identifier: the certificate "s" is
    alice's latest and an older one of bob.  Nothing is revoked. *)
Definition world_shared_identifier : World :=
  Build_World
    (fun _ => ([("alice", [cert "a1" 1; cert "s" 5]);
                ("bob", [cert "s" 2; cert "b2" 6])], None))
    [] no_error3 0 no_error1 (fun _ revoked n => (pem revoked n, None))
    (fun _ => None) no_error1 no_error2.




(** ** Proof automation *)

(** Event lists built by [bind] are brought to a right-nested form. *)
Ltac ev_norm :=
  cbn [app]; rewrite <- ?app_assoc; cbn [app]; rewrite ?app_nil_r.

(** ** Basic facts *)

Lemma revocation_frame_refl w : revocation_frame w w.
Proof. repeat split. Qed.

Lemma revocation_frame_trans w1 w2 w3 :
  revocation_frame w1 w2 -> revocation_frame w2 w3 -> revocation_frame w1 w3.
Proof.
  unfold revocation_frame; intros H1 H2.
  decompose [and] H1; decompose [and] H2; repeat split; congruence.
Qed.

Lemma is_revoked_In w id : is_revoked w id = true <-> In id (vault_revoked w).
Proof.
  unfold is_revoked; rewrite existsb_exists; split.
  - intros [x [Hin Heq]]. apply String.eqb_eq in Heq. now subst.
  - intros Hin. exists id. split; [assumption | apply String.eqb_refl].
Qed.

(** What one revoke call does. *)
Lemma revokeCertificate_spec pki c w :
  exists err w',
    revokeCertificate pki c w = Returned err w' [EvRevoke pki (Identifier c) err] /\
    err = vault_revoke_error w (vault_revoked w) pki (Identifier c) /\
    revocation_frame w w' /\
    (forall e, err = Some e -> w' = w) /\
    (err = None -> is_revoked w (Identifier c) = true -> w' = w) /\
    (err = None ->
     forall id, is_revoked w' id = true <->
                (is_revoked w id = true \/ id = Identifier c)).
Proof.
  unfold revokeCertificate.
  destruct (vault_revoke_error w (vault_revoked w) pki (Identifier c)) as [e|] eqn:E.
  - exists (Some e), w.
    split; [reflexivity|]. split; [reflexivity|].
    split; [apply revocation_frame_refl|]. split; [reflexivity|].
    split; discriminate.
  - destruct (is_revoked w (Identifier c)) eqn:R.
    + exists None, w.
      split; [reflexivity|]. split; [reflexivity|].
      split; [apply revocation_frame_refl|]. split; [discriminate|].
      split; [reflexivity|].
      intros _ id. split; [now left|]. intros [H| ->]; assumption.
    + exists None, (set_vault_revoked (Identifier c :: vault_revoked w) w).
      split; [reflexivity|]. split; [reflexivity|].
      split; [repeat split|]. split; [discriminate|].
      split; [discriminate|].
      intros _ id. rewrite !is_revoked_In. cbn [vault_revoked set_vault_revoked In].
      split; [intros [<-|H] | intros [H| ->]]; auto.
Qed.

(** The per-certificate loop: it always returns, issues revoke calls only,
    and on success has revoked exactly the listed certificates on top of
    what was revoked before. *)
Lemma revokeEach_spec pki crts : forall w,
  exists err w' evs,
    revokeEach pki crts w = Returned err w' evs /\
    Forall (fun ev => is_revoke ev = true) evs /\
    revocation_frame w w' /\
    (err = None ->
     forall id, is_revoked w' id = true <->
                (is_revoked w id = true \/ In id (map Identifier crts))).
Proof.
  induction crts as [|c rest IH]; intros w; simpl.
  - exists None, w, [].
    split; [reflexivity|]. split; [constructor|].
    split; [apply revocation_frame_refl|]. intros _.
    intros id; simpl; tauto.
  - unfold bind.
    destruct (revokeCertificate_spec pki c w)
      as (err & w1 & E & Herr & F1 & Hsame & _ & Hrev).
    rewrite E. destruct err as [e|].
    + exists (Some e), w1, [EvRevoke pki (Identifier c) (Some e)].
      split; [reflexivity|]. split; [repeat constructor|].
      split; [assumption | discriminate].
    + destruct (IH w1) as (err2 & w2 & ev2 & E2 & Hev & F2 & Hok).
      rewrite E2. exists err2, w2, ([EvRevoke pki (Identifier c) None] ++ ev2).
      split; [reflexivity|]. split; [constructor; [reflexivity | assumption]|].
      split; [eapply revocation_frame_trans; eassumption|].
      intros ->. specialize (Hok eq_refl). specialize (Hrev eq_refl).
      intros id. rewrite Hok, Hrev. simpl. intuition.
Qed.

Lemma rangeUsers_spec pki users : forall w,
  exists err w' evs,
    rangeUsers pki users w = Returned err w' evs /\
    Forall (fun ev => is_revoke ev = true) evs /\
    revocation_frame w w' /\
    (err = None ->
     forall id, is_revoked w' id = true <->
                (is_revoked w id = true \/ In id (map Identifier (targets users)))).
Proof.
  induction users as [|[u crts] rest IH]; intros w; simpl.
  - exists None, w, [].
    split; [reflexivity|]. split; [constructor|].
    split; [apply revocation_frame_refl|]. intros _.
    intros id; simpl; tauto.
  - unfold bind, revokeUserCertificates.
    destruct (revokeEach_spec pki (toRevoke crts false) w)
      as (err & w1 & ev1 & E & Hev1 & F1 & Hok1).
    rewrite E. destruct err as [e|].
    + exists (Some e), w1, (ev1 ++ []).
      split; [reflexivity|]. split; [now rewrite app_nil_r|].
      split; [assumption | discriminate].
    + destruct (IH w1) as (err2 & w2 & ev2 & E2 & Hev2 & F2 & Hok2).
      rewrite E2. exists err2, w2, (ev1 ++ ev2).
      split; [reflexivity|]. split; [apply Forall_app; now split|].
      split; [eapply revocation_frame_trans; eassumption|].
      intros ->. specialize (Hok1 eq_refl). specialize (Hok2 eq_refl).
      intros id. rewrite Hok2, Hok1. unfold targets; simpl.
      rewrite map_app, in_app_iff. tauto.
Qed.

(** The loop over a concatenation runs the first part, then the second. *)
Lemma rangeUsers_app pki us1 us2 : forall w w1 ev1,
  rangeUsers pki us1 w = Returned None w1 ev1 ->
  rangeUsers pki (us1 ++ us2) w =
  match rangeUsers pki us2 w1 with
  | Returned a w2 ev2 => Returned a w2 (ev1 ++ ev2)
  | Panicked w2 ev2 => Panicked w2 (ev1 ++ ev2)
  end.
Proof.
  induction us1 as [|[u crts] rest IH]; intros w w1 ev1 H; simpl in *.
  - injection H as <- <-. destruct (rangeUsers pki us2 w); reflexivity.
  - unfold bind in *.
    destruct (revokeUserCertificates pki crts false w) as [[e|] wa eva | wa eva];
      try discriminate.
    destruct (rangeUsers pki rest wa) as [a wb evb|wb evb] eqn:E; try discriminate.
    injection H as -> -> <-.
    rewrite (IH wa w1 evb E).
    destruct (rangeUsers pki us2 w1); now rewrite app_assoc.
Qed.

(** *** Paths *)

Lemma last_ascii_app a b :
  b <> EmptyString -> last_ascii (a ++ b)%string = last_ascii b.
Proof.
  intros Hb. induction a as [|c a IH]; [reflexivity|].
  change (String c a ++ b)%string with (String c (a ++ b)%string).
  simpl. destruct (a ++ b)%string eqn:E.
  - destruct a; simpl in E; [contradiction | discriminate].
  - exact IH.
Qed.

Lemma ends_with_last suf s :
  suf <> EmptyString -> ends_with suf s = true -> last_ascii s = last_ascii suf.
Proof.
  intros Hs. induction s as [|c s IH]; intros H; cbn [ends_with] in H;
    apply orb_true_iff in H; destruct H as [H|H]; try discriminate.
  - apply String.eqb_eq in H. congruence.
  - apply String.eqb_eq in H. now rewrite <- H.
  - destruct s as [|c' s'].
    + cbn [ends_with] in H. apply orb_true_iff in H. destruct H as [H|H];
        [|discriminate]. apply String.eqb_eq in H. congruence.
    + now apply IH.
Qed.

Lemma ends_with_app suf a : ends_with suf (a ++ suf)%string = true.
Proof.
  induction a as [|c a IH].
  - change (EmptyString ++ suf)%string with suf.
    destruct suf; cbn [ends_with]; now rewrite String.eqb_refl.
  - change (String c a ++ suf)%string with (String c (a ++ suf)%string).
    cbn [ends_with]. rewrite IH. apply orb_true_r.
Qed.

Lemma append_assoc (a b c : string) : ((a ++ b) ++ c = a ++ (b ++ c))%string.
Proof. induction a; simpl; congruence. Qed.

(** Asking for the PEM never rotates; asking for a rotation does. *)
Lemma is_rotate_pem pki : is_rotate (pemRequest pki) = false.
Proof.
  unfold is_rotate, pemRequest, crl_pem_path; cbn [Path].
  destruct (ends_with "/crl/rotate" ("/v1/" ++ pki ++ "/crl/pem")%string) eqn:E;
    [|reflexivity].
  apply ends_with_last in E; [|discriminate].
  rewrite <- append_assoc, last_ascii_app in E by discriminate.
  discriminate.
Qed.

Lemma is_rotate_rotate pki : is_rotate (rotateRequest pki) = true.
Proof.
  unfold is_rotate, rotateRequest, crl_rotate_path; cbn [Path].
  rewrite <- append_assoc. apply ends_with_app.
Qed.

(** [GetCRL] written out: it leaves the world as it is. *)
Lemma GetCRL_run r w :
  GetCRL r w =
  match vault_request_error w (pemRequest (gc_VaultPKIPath r)) with
  | Some e =>
      Returned ([], Some e) w [EvRawRequest (pemRequest (gc_VaultPKIPath r)) (Some e)]
  | None =>
      let body := vault_body w (pemRequest (gc_VaultPKIPath r))
                             (vault_revoked w) (vault_crl_number w) in
      Returned (fst body, None) w
        [EvRawRequest (pemRequest (gc_VaultPKIPath r)) None; EvReadAll (snd body); EvBodyClose]
  end.
Proof.
  unfold GetCRL, bind, RawRequest. fold (pemRequest (gc_VaultPKIPath r)).
  destruct (vault_request_error w (pemRequest (gc_VaultPKIPath r))) as [e|]; [reflexivity|].
  rewrite is_rotate_pem. simpl.
  destruct (vault_body w (pemRequest (gc_VaultPKIPath r)) (vault_revoked w)
                        (vault_crl_number w)) as [data rerr].
  reflexivity.
Qed.

(** The export call reads the endpoint and changes nothing. *)
Lemma Export_run endpoint w out err w' evs :
  ExportClientVpnClientCertificateRevocationList endpoint w = Returned (out, err) w' evs ->
  w' = w /\ evs = [EvExport endpoint err] /\
  (err = None -> CertificateRevocationList out = cvpn_crl w endpoint).
Proof.
  unfold ExportClientVpnClientCertificateRevocationList.
  destruct (cvpn_export_error w endpoint) as [e|]; intros H;
    injection H as <- <- <- <-; repeat split; discriminate.
Qed.

Lemma Export_returns endpoint w :
  exists out err,
    ExportClientVpnClientCertificateRevocationList endpoint w
    = Returned (out, err) w [EvExport endpoint err].
Proof.
  unfold ExportClientVpnClientCertificateRevocationList.
  destruct (cvpn_export_error w endpoint) as [e|]; eauto.
Qed.

Lemma GetCRL_returns r w :
  exists crl gerr evs,
    GetCRL r w = Returned (crl, gerr) w evs /\ imports evs = [].
Proof.
  rewrite GetCRL_run.
  destruct (vault_request_error w (pemRequest (gc_VaultPKIPath r))); cbn zeta; eauto 6.
Qed.

(** [UpdateCRL] from the comparison on, written out. *)
Lemma UpdateCRL_at_diff r w crl out w4 pre :
  reaches_diff r w crl out w4 pre ->
  UpdateCRL r w =
  let id := ClientVPNEndpointID r in
  let pushed := string_of_bytes crl in
  match CertificateRevocationList out with
  | Some installed =>
      if (installed =? pushed)%string
      then Returned (crl, None) w4 (pre ++ [EvLog "CRL does not need to be updated"])
      else match cvpn_import_error w4 id pushed with
           | Some e => Returned ([], Some e) w4 (pre ++ [EvImport id pushed (Some e)])
           | None =>
               Returned (crl, None) (set_cvpn_crl id pushed w4)
                 (pre ++ [EvImport id pushed None;
                          EvLog "Updated CRL in AWS Client VPN endpoint"])
           end
  | None =>
      match cvpn_import_error w4 id pushed with
      | Some e =>
          Returned ([], Some e) w4
            (pre ++ [EvImport id pushed (Some e);
                     EvLog "First upload of CRL to the CPN endpoint"])
      | None =>
          Returned (crl, None) (set_cvpn_crl id pushed w4)
            (pre ++ [EvImport id pushed None;
                     EvLog "First upload of CRL to the CPN endpoint"])
      end
  end.
Proof.
  intros (users & w2 & ev2 & gerr & w3 & ev3 & ev4 & Hu & Hl & Hg & He & ->).
  unfold UpdateCRL, bind, ListUsers.
  fold (listUsersRequest r); fold (getCRLRequest r).
  rewrite Hu, Hl, Hg, He. cbn [snd].
  unfold ImportClientVpnClientCertificateRevocationList, logPrintln, deref, ret.
  destruct out as [[installed|]]; cbn [CertificateRevocationList elemIsValid].
  - destruct (installed =? string_of_bytes crl)%string; cbn [negb].
    + now ev_norm.
    + destruct (cvpn_import_error w4 (ClientVPNEndpointID r) (string_of_bytes crl));
        now ev_norm.
  - destruct (cvpn_import_error w4 (ClientVPNEndpointID r) (string_of_bytes crl));
      now ev_norm.
Qed.

(** Every invocation returns: either it fails before the comparison, with
    only the revoked set possibly changed and no gateway write, or it gets
    as far as the comparison. *)
Lemma UpdateCRL_stages r w :
  (exists e w' evs,
      UpdateCRL r w = Returned ([], Some e) w' evs /\
      revocation_frame w w' /\ imports evs = []) \/
  (exists crl out w4 pre,
      reaches_diff r w crl out w4 pre /\
      revocation_frame w w4 /\ imports pre = []).
Proof.
  destruct (vault_users w (listUsersRequest r)) as [users [e|]] eqn:Hu.
  - left. exists e, w, [EvListUsers (listUsersRequest r) (Some e)].
    split; [|split; [apply revocation_frame_refl | reflexivity]].
    unfold UpdateCRL, bind, ListUsers. fold (listUsersRequest r). now rewrite Hu.
  - destruct (rangeUsers_spec (VaultPKIPath r) users w)
      as (err & w2 & ev2 & Hl & Hev2 & F2 & _).
    assert (Hno2 : imports ev2 = []).
    { clear - Hev2. induction Hev2 as [|ev l Hx _ IH]; [reflexivity|].
      unfold imports in *; simpl. destruct ev; try discriminate; exact IH. }
    destruct err as [e|].
    + left. exists e, w2, (EvListUsers (listUsersRequest r) None :: ev2 ++ []).
      split; [|split; [assumption|]].
      * unfold UpdateCRL, bind, ListUsers. fold (listUsersRequest r).
        rewrite Hu, Hl; reflexivity.
      * rewrite app_nil_r. exact Hno2.
    + destruct (GetCRL_returns (getCRLRequest r) w2) as (crl & gerr & ev3 & Hg & Hno3).
      destruct (Export_returns (ClientVPNEndpointID r) w2) as (out & xe & He).
      destruct xe as [xe|].
      * left. eexists xe, w2, _. split; [|split; [exact F2|]].
        -- unfold UpdateCRL, bind, ListUsers. fold (listUsersRequest r).
           fold (getCRLRequest r). rewrite Hu, Hl, Hg, He. reflexivity.
        -- ev_norm. unfold imports in *. cbn [filter is_import].
           now rewrite !filter_app, Hno2, Hno3.
      * right. exists crl, out, w2.
        exists (EvListUsers (listUsersRequest r) None
                  :: ev2 ++ ev3 ++ [EvExport (ClientVPNEndpointID r) None]).
        split; [|split; [exact F2|]].
        -- exists users, w2, ev2, gerr, w2, ev3, [EvExport (ClientVPNEndpointID r) None].
           repeat split; assumption.
        -- unfold imports in *. cbn [filter is_import].
           now rewrite !filter_app, Hno2, Hno3.
Qed.

(** Among revoke calls there is no call of another kind. *)
Lemma revokes_only_filter (p : Event -> bool) evs :
  Forall (fun ev => is_revoke ev = true) evs ->
  (forall ev, is_revoke ev = true -> p ev = false) ->
  filter p evs = [].
Proof.
  intros Hev Hp. induction Hev as [|ev l Hx _ IH]; [reflexivity|].
  cbn [filter]. now rewrite (Hp ev Hx).
Qed.

(** ** The operations *)

(** C8 - when the enumeration of users fails, [UpdateCRL] returns the
    enumeration error at once: the only call made is the enumeration, so no
    certificate is handed to the revocation logic, and the world is left as
    it was. *)
Theorem UpdateCRL_enumeration_fails r w users e :
  vault_users w (listUsersRequest r) = (users, Some e) ->
  UpdateCRL r w
  = Returned ([], Some e) w [EvListUsers (listUsersRequest r) (Some e)]
  /\ filter is_revoke (events (UpdateCRL r w)) = [].
Proof.
  intros Hu.
  assert (E : UpdateCRL r w
              = Returned ([], Some e) w [EvListUsers (listUsersRequest r) (Some e)]).
  { unfold UpdateCRL, bind, ListUsers. fold (listUsersRequest r). now rewrite Hu. }
  split; [exact E|]. now rewrite E.
Qed.

Lemma UpdateCRL_enumeration_fails_witness :
  vault_users world_enum_down (listUsersRequest req0) = ([], Some "permission denied") /\
  UpdateCRL req0 world_enum_down
  = Returned ([], Some "permission denied") world_enum_down
      [EvListUsers (listUsersRequest req0) (Some "permission denied")].
Proof.
  split; [reflexivity|].
  apply (UpdateCRL_enumeration_fails req0 world_enum_down [] "permission denied").
  reflexivity.
Defined.

(** C7 - when [revokeUserCertificates] fails for a user, [UpdateCRL]
    returns that error there: the calls made are the enumeration, the
    revocations of the users before and those of the failing user up to the
    rejected one.  They are revoke calls only, so nothing is asked for the
    users after, the CRL is not fetched and the gateway is not contacted. *)
Theorem UpdateCRL_revocation_fails r w before u crts after w1 ev1 e w2 ev2 :
  vault_users w (listUsersRequest r) = (before ++ (u, crts) :: after, None) ->
  rangeUsers (VaultPKIPath r) before w = Returned None w1 ev1 ->
  revokeUserCertificates (VaultPKIPath r) crts false w1 = Returned (Some e) w2 ev2 ->
  UpdateCRL r w
  = Returned ([], Some e) w2 (EvListUsers (listUsersRequest r) None :: ev1 ++ ev2)
  /\ Forall (fun ev => is_revoke ev = true) (ev1 ++ ev2)
  /\ filter is_request (ev1 ++ ev2) = []
  /\ filter is_gateway (ev1 ++ ev2) = []
  /\ cvpn_crl w2 = cvpn_crl w.
Proof.
  intros Hu Hb Hf.
  assert (Hl : rangeUsers (VaultPKIPath r) (before ++ (u, crts) :: after) w
               = Returned (Some e) w2 (ev1 ++ ev2)).
  { rewrite (rangeUsers_app _ _ _ _ _ _ Hb). cbn [rangeUsers]. unfold bind.
    rewrite Hf. cbn [ret]. now rewrite app_nil_r. }
  destruct (rangeUsers_spec (VaultPKIPath r) (before ++ (u, crts) :: after) w)
    as (err & w' & evs & Hl' & Hev & F & _).
  rewrite Hl in Hl'. injection Hl' as <- <- <-.
  split; [|split; [exact Hev|]].
  - unfold UpdateCRL, bind, ListUsers. fold (listUsersRequest r).
    rewrite Hu, Hl. cbn [ret snd]. now ev_norm.
  - assert (Hnone : forall p : Event -> bool,
               (forall ev, is_revoke ev = true -> p ev = false) ->
               filter p (ev1 ++ ev2) = [])
      by (intros p Hp; now apply revokes_only_filter).
    split; [|split].
    + apply Hnone. now intros [].
    + apply Hnone. now intros [].
    + apply F.
Qed.

Lemma UpdateCRL_revocation_fails_witness :
  UpdateCRL req0 world_revoke_rejected
  = Returned ([], Some "certificate not found")
      (set_vault_revoked ["a1"] world_revoke_rejected)
      [EvListUsers (listUsersRequest req0) None;
       EvRevoke "pki" "a1" None;
       EvRevoke "pki" "b1" (Some "certificate not found")].
Proof.
  refine (proj1 (UpdateCRL_revocation_fails req0 world_revoke_rejected
                   [alice] "bob" (snd bob) [carol]
                   (set_vault_revoked ["a1"] world_revoke_rejected)
                   [EvRevoke "pki" "a1" None]
                   "certificate not found"
                   (set_vault_revoked ["a1"] world_revoke_rejected)
                   [EvRevoke "pki" "b1" (Some "certificate not found")]
                   _ _ _)); reflexivity.
Defined.

(** C1 - the error of [GetCRL] is dropped by [UpdateCRL]: with the CRL
    endpoint of the PKI mount unreachable, [GetCRL] reports the error, yet
    [UpdateCRL] goes on, overwrites the endpoint's CRL with the empty
    string and returns no error. *)
Theorem UpdateCRL_drops_fetch_error :
  result (GetCRL (getCRLRequest req0) world_fetch_down)
  = Some ([], Some "connection refused")
  /\ result (UpdateCRL req0 world_fetch_down) = Some ([], None)
  /\ imports (events (UpdateCRL req0 world_fetch_down))
     = [EvImport "cvpn-1" "" None]
  /\ cvpn_crl world_fetch_down "cvpn-1" = Some "OLD"
  /\ cvpn_crl (final (UpdateCRL req0 world_fetch_down)) "cvpn-1" = Some "".
Proof. repeat split. Qed.

(** C5 - a failure while the response body is read is dropped by [GetCRL]:
    it returns the bytes read so far and no error. *)
Theorem GetCRL_drops_read_error :
  result (RawRequest (pemRequest "pki") world_read_fails)
  = Some (Some {| Body := (list_byte_of_string "-----BEGIN X5", Some "unexpected EOF") |},
          None)
  /\ result (GetCRL {| gc_VaultPKIPath := "pki" |} world_read_fails)
     = Some (list_byte_of_string "-----BEGIN X5", None)
  /\ In (EvReadAll (Some "unexpected EOF"))
        (events (GetCRL {| gc_VaultPKIPath := "pki" |} world_read_fails)).
Proof. split; [reflexivity|]. split; [reflexivity|]. cbn. tauto. Qed.

Lemma string_of_bytes_inj a b : string_of_bytes a = string_of_bytes b -> a = b.
Proof.
  unfold string_of_bytes. intros H.
  rewrite <- (list_byte_of_string_of_list_byte a), H.
  apply list_byte_of_string_of_list_byte.
Qed.

(** From the comparison on, when the installed CRL is not the fetched one
    (or none is installed): one import call carrying the fetched bytes,
    then log lines only. *)
Lemma UpdateCRL_pushes r w crl out w4 pre :
  reaches_diff r w crl out w4 pre ->
  CertificateRevocationList out <> Some (string_of_bytes crl) ->
  exists err w5 logs,
    UpdateCRL r w
    = Returned (after_import crl err) w5
        (pre ++ EvImport (ClientVPNEndpointID r) (string_of_bytes crl) err :: logs) /\
    imports logs = [] /\
    err = cvpn_import_error w4 (ClientVPNEndpointID r) (string_of_bytes crl) /\
    (forall e, err = Some e -> w5 = w4) /\
    (err = None -> w5 = set_cvpn_crl (ClientVPNEndpointID r) (string_of_bytes crl) w4).
Proof.
  intros Hr Hne. rewrite (UpdateCRL_at_diff _ _ _ _ _ _ Hr). cbn zeta.
  destruct (CertificateRevocationList out) as [installed|].
  - destruct (String.eqb_spec installed (string_of_bytes crl)) as [->|_];
      [now contradiction Hne|].
    destruct (cvpn_import_error w4 (ClientVPNEndpointID r) (string_of_bytes crl))
      as [e|].
    + exists (Some e), w4, []. repeat split; intros; congruence.
    + exists None, (set_cvpn_crl (ClientVPNEndpointID r) (string_of_bytes crl) w4),
        [EvLog "Updated CRL in AWS Client VPN endpoint"].
      repeat split; intros; congruence.
  - destruct (cvpn_import_error w4 (ClientVPNEndpointID r) (string_of_bytes crl))
      as [e|].
    + exists (Some e), w4, [EvLog "First upload of CRL to the CPN endpoint"].
      repeat split; intros; congruence.
    + exists None, (set_cvpn_crl (ClientVPNEndpointID r) (string_of_bytes crl) w4),
        [EvLog "First upload of CRL to the CPN endpoint"].
      repeat split; intros; congruence.
Qed.

Lemma UpdateCRL_no_push r w crl out w4 pre :
  reaches_diff r w crl out w4 pre ->
  CertificateRevocationList out = Some (string_of_bytes crl) ->
  UpdateCRL r w
  = Returned (crl, None) w4 (pre ++ [EvLog "CRL does not need to be updated"]).
Proof.
  intros Hr He. rewrite (UpdateCRL_at_diff _ _ _ _ _ _ Hr). cbn zeta.
  now rewrite He, String.eqb_refl.
Qed.

Lemma cvpn_crl_set endpoint crl w :
  cvpn_crl (set_cvpn_crl endpoint crl w) endpoint = Some crl.
Proof. cbn. now rewrite String.eqb_refl. Qed.

(** C2 - at the comparison: if the installed CRL is the fetched one, nothing
    is pushed and the fetched CRL is returned; otherwise (a different CRL,
    or none installed) exactly the fetched bytes are handed to the import
    call, and when the call succeeds the endpoint holds them and the fetched
    CRL is returned. *)
Theorem UpdateCRL_diff_step r w crl out w4 pre :
  reaches_diff r w crl out w4 pre ->
  let id := ClientVPNEndpointID r in
  let pushed := string_of_bytes crl in
  (CertificateRevocationList out = Some pushed ->
   UpdateCRL r w
   = Returned (crl, None) w4 (pre ++ [EvLog "CRL does not need to be updated"])
   /\ imports (events (UpdateCRL r w)) = imports pre)
  /\
  (CertificateRevocationList out <> Some pushed ->
   exists err w5 logs,
     UpdateCRL r w
     = Returned (after_import crl err) w5 (pre ++ EvImport id pushed err :: logs) /\
     imports logs = [] /\
     list_byte_of_string pushed = crl /\
     (err = None ->
      cvpn_crl w5 id = Some pushed /\ result (UpdateCRL r w) = Some (crl, None))).
Proof.
  intros Hr id pushed. split.
  - intros He. rewrite (UpdateCRL_no_push _ _ _ _ _ _ Hr He). split; [reflexivity|].
    cbn [events]. unfold imports. rewrite filter_app. cbn. apply app_nil_r.
  - intros Hne.
    destruct (UpdateCRL_pushes _ _ _ _ _ _ Hr Hne) as (err & w5 & logs & E & Hl & _ & _ & Hok).
    exists err, w5, logs. split; [exact E|]. split; [exact Hl|].
    split; [apply list_byte_of_string_of_list_byte|].
    intros ->. rewrite (Hok eq_refl), E. split; [apply cvpn_crl_set | reflexivity].
Qed.

Lemma world0_reaches_diff :
  reaches_diff req0 world0 (list_byte_of_string "a1")
    {| CertificateRevocationList := None |} world0_converged calls0.
Proof.
  exists [("alice", [cert "a1" 1; cert "a2" 5]); ("bob", [cert "b1" 3])],
    world0_converged, [EvRevoke "pki" "a1" None], None, world0_converged,
    [EvRawRequest (pemRequest "pki") None; EvReadAll None; EvBodyClose],
    [EvExport "cvpn-1" None].
  repeat split.
Qed.

Lemma world0_synced_reaches_diff :
  reaches_diff req0 world0_synced (list_byte_of_string "a1")
    {| CertificateRevocationList := Some "a1" |} world0_synced calls0.
Proof.
  exists [("alice", [cert "a1" 1; cert "a2" 5]); ("bob", [cert "b1" 3])],
    world0_synced, [EvRevoke "pki" "a1" None], None, world0_synced,
    [EvRawRequest (pemRequest "pki") None; EvReadAll None; EvBodyClose],
    [EvExport "cvpn-1" None].
  repeat split.
Qed.

Lemma UpdateCRL_diff_step_witness :
  (exists err w5 logs,
      UpdateCRL req0 world0
      = Returned (after_import (list_byte_of_string "a1") err) w5
          (calls0 ++ EvImport "cvpn-1" "a1" err :: logs) /\
      imports logs = [] /\
      list_byte_of_string "a1" = list_byte_of_string "a1" /\
      (err = None ->
       cvpn_crl w5 "cvpn-1" = Some "a1" /\
       result (UpdateCRL req0 world0) = Some (list_byte_of_string "a1", None)))
  /\
  (UpdateCRL req0 world0_synced
   = Returned (list_byte_of_string "a1", None) world0_synced
       (calls0 ++ [EvLog "CRL does not need to be updated"])
   /\ imports (events (UpdateCRL req0 world0_synced)) = imports calls0).
Proof.
  split.
  - apply (proj2 (UpdateCRL_diff_step req0 world0 _ _ _ _ world0_reaches_diff)).
    discriminate.
  - apply (proj1 (UpdateCRL_diff_step req0 world0_synced _ _ _ _
                    world0_synced_reaches_diff)).
    reflexivity.
Defined.

(** Up to the comparison nothing was pushed and only the revoked set may
    have changed. *)
Lemma reaches_diff_frame r w crl out w4 pre :
  reaches_diff r w crl out w4 pre ->
  imports pre = [] /\ revocation_frame w w4 /\
  CertificateRevocationList out = cvpn_crl w4 (ClientVPNEndpointID r).
Proof.
  intros (users & w2 & ev2 & gerr & w3 & ev3 & ev4 & Hu & Hl & Hg & He & ->).
  destruct (rangeUsers_spec (VaultPKIPath r) users w)
    as (err & w2' & ev2' & Hl' & Hev & F & _).
  rewrite Hl in Hl'. injection Hl' as <- <- <-.
  destruct (GetCRL_returns (getCRLRequest r) w2) as (crl' & gerr' & ev3' & Hg' & Hno3).
  rewrite Hg in Hg'. injection Hg' as <- <- <- <-.
  destruct (Export_run _ _ _ _ _ _ He) as (-> & -> & Hout).
  split; [|split; [exact F | now apply Hout]].
  unfold imports in *. cbn [filter is_import].
  rewrite !filter_app, Hno3, (revokes_only_filter is_import ev2 Hev); [reflexivity|].
  now intros [].
Qed.

Lemma imports_after_push pre id pushed err logs :
  imports pre = [] -> imports logs = [] ->
  imports (pre ++ EvImport id pushed err :: logs) = [EvImport id pushed err].
Proof.
  unfold imports. intros Hp Hl. rewrite filter_app, Hp. cbn. now rewrite Hl.
Qed.

Lemma imports_after_log pre msg : imports (pre ++ [EvLog msg]) = imports pre.
Proof. unfold imports. rewrite filter_app. cbn. apply app_nil_r. Qed.

Lemma installed_dec (o : option string) (s : string) : {o = Some s} + {o <> Some s}.
Proof.
  destruct o as [x|]; [|right; discriminate].
  destruct (string_dec x s) as [->|H]; [now left | right; congruence].
Qed.

(** C4 - no CRL installed and an installed empty CRL are told apart.
    [UpdateCRL] never panics; when the export call reports no CRL, the
    fetched one is pushed without the missing string being dereferenced;
    when it reports the empty string, that string is compared with the
    fetched CRL like any other: no push if the fetched CRL is empty too, a
    push otherwise. *)
Theorem UpdateCRL_absent_is_not_empty r w :
  (exists a w' evs, UpdateCRL r w = Returned a w' evs)
  /\
  forall crl out w4 pre,
    reaches_diff r w crl out w4 pre ->
    let id := ClientVPNEndpointID r in
    let pushed := string_of_bytes crl in
    (CertificateRevocationList out = None ->
     exists err w5 logs,
       UpdateCRL r w
       = Returned (after_import crl err) w5 (pre ++ EvImport id pushed err :: logs)
       /\ imports logs = [])
    /\
    (CertificateRevocationList out = Some "" ->
     (crl = [] ->
      UpdateCRL r w
      = Returned (crl, None) w4 (pre ++ [EvLog "CRL does not need to be updated"])) /\
     (crl <> [] ->
      exists err w5 logs,
        UpdateCRL r w
        = Returned (after_import crl err) w5 (pre ++ EvImport id pushed err :: logs)
        /\ imports logs = [])).
Proof.
  split.
  - destruct (UpdateCRL_stages r w) as [(e & w' & evs & E & _)|(crl & out & w4 & pre & Hr & _)].
    + eauto.
    + destruct (installed_dec (CertificateRevocationList out) (string_of_bytes crl))
        as [He|Hne].
      * rewrite (UpdateCRL_no_push _ _ _ _ _ _ Hr He). eauto.
      * destruct (UpdateCRL_pushes _ _ _ _ _ _ Hr Hne) as (err & w5 & logs & E & _).
        rewrite E. eauto.
  - intros crl out w4 pre Hr id pushed. split.
    + intros Habs.
      destruct (UpdateCRL_pushes r w crl out w4 pre Hr) as (err & w5 & logs & E & Hl & _).
      { rewrite Habs. discriminate. }
      eauto.
    + intros Hemp. split.
      * intros ->. apply (UpdateCRL_no_push _ _ _ _ _ _ Hr). now rewrite Hemp.
      * intros Hne.
        destruct (UpdateCRL_pushes r w crl out w4 pre Hr)
          as (err & w5 & logs & E & Hl & _).
        { rewrite Hemp. intros [= Heq]. apply Hne.
          apply string_of_bytes_inj. now rewrite <- Heq. }
        eauto.
Qed.

Lemma world_empty_installed_reaches_diff :
  reaches_diff req0 world_empty_installed []
    {| CertificateRevocationList := Some "" |} world_empty_installed
    [EvListUsers (listUsersRequest req0) None;
     EvRawRequest (pemRequest "pki") None; EvReadAll None; EvBodyClose;
     EvExport "cvpn-1" None].
Proof.
  exists [], world_empty_installed, [], None, world_empty_installed,
    [EvRawRequest (pemRequest "pki") None; EvReadAll None; EvBodyClose],
    [EvExport "cvpn-1" None].
  repeat split.
Qed.

Lemma UpdateCRL_absent_is_not_empty_witness :
  (exists err w5 logs,
      UpdateCRL req0 world0
      = Returned (after_import (list_byte_of_string "a1") err) w5
          (calls0 ++ EvImport "cvpn-1" "a1" err :: logs)
      /\ imports logs = [])
  /\
  UpdateCRL req0 world_empty_installed
  = Returned ([], None) world_empty_installed
      ([EvListUsers (listUsersRequest req0) None;
        EvRawRequest (pemRequest "pki") None; EvReadAll None; EvBodyClose;
        EvExport "cvpn-1" None] ++ [EvLog "CRL does not need to be updated"]).
Proof.
  split.
  - apply (proj1 (proj2 (UpdateCRL_absent_is_not_empty req0 world0) _ _ _ _
                    world0_reaches_diff)).
    reflexivity.
  - apply (proj1 (proj2 (proj2 (UpdateCRL_absent_is_not_empty req0 world_empty_installed)
                           _ _ _ _ world_empty_installed_reaches_diff) eq_refl)).
    reflexivity.
Defined.

(** C10 - an invocation makes at most one import call, and the endpoint's
    CRL changes only through it: none when the installed CRL is the fetched
    one (or the run fails before the comparison), exactly one, carrying the
    fetched CRL, when the installed CRL differs or is absent.  The CRL of
    every endpoint is afterwards what it was, except that a successful
    import has put the pushed CRL in the requested endpoint. *)
Theorem UpdateCRL_at_most_one_import r w :
  exists a w' evs,
    UpdateCRL r w = Returned a w' evs /\
    List.length (imports evs) <= 1 /\
    (forall endpoint,
        cvpn_crl w' endpoint = cvpn_crl w endpoint \/
        exists crl,
          endpoint = ClientVPNEndpointID r /\
          imports evs = [EvImport endpoint crl None] /\
          cvpn_crl w' endpoint = Some crl) /\
    (forall crl out w4 pre,
        reaches_diff r w crl out w4 pre ->
        (CertificateRevocationList out = Some (string_of_bytes crl) ->
         imports evs = []) /\
        (CertificateRevocationList out <> Some (string_of_bytes crl) ->
         exists err,
           imports evs = [EvImport (ClientVPNEndpointID r) (string_of_bytes crl) err])).
Proof.
  assert (Hbranches : forall a w' evs,
             UpdateCRL r w = Returned a w' evs ->
             forall crl out w4 pre,
               reaches_diff r w crl out w4 pre ->
               (CertificateRevocationList out = Some (string_of_bytes crl) ->
                imports evs = []) /\
               (CertificateRevocationList out <> Some (string_of_bytes crl) ->
                exists err,
                  imports evs
                  = [EvImport (ClientVPNEndpointID r) (string_of_bytes crl) err])).
  { intros a w' evs E crl out w4 pre Hr.
    destruct (reaches_diff_frame _ _ _ _ _ _ Hr) as (Hno & _ & _). split.
    - intros He. rewrite (UpdateCRL_no_push _ _ _ _ _ _ Hr He) in E.
      injection E as _ _ <-. now rewrite imports_after_log.
    - intros Hne.
      destruct (UpdateCRL_pushes _ _ _ _ _ _ Hr Hne) as (err & w5 & logs & E' & Hl & _).
      rewrite E' in E. injection E as _ _ <-. exists err.
      now apply imports_after_push. }
  destruct (UpdateCRL_stages r w)
    as [(e & w' & evs & E & F & Hno)|(crl & out & w4 & pre & Hr & F & Hno)].
  - exists ([], Some e), w', evs. split; [exact E|]. split; [rewrite Hno; cbn; lia|].
    split; [|now apply Hbranches with (a := ([], Some e)) (w' := w')].
    intros endpoint. left. destruct F as (_ & _ & _ & _ & _ & Fc & _). now rewrite Fc.
  - assert (Fc : cvpn_crl w4 = cvpn_crl w) by apply F.
    destruct (installed_dec (CertificateRevocationList out) (string_of_bytes crl))
      as [He|Hne].
    + pose proof (UpdateCRL_no_push _ _ _ _ _ _ Hr He) as E.
      eexists _, _, _. split; [exact E|].
      split; [rewrite imports_after_log, Hno; cbn; lia|].
      split; [|now apply Hbranches with (a := (crl, None)) (w' := w4)].
      intros endpoint. left. now rewrite Fc.
    + destruct (UpdateCRL_pushes _ _ _ _ _ _ Hr Hne)
        as (err & w5 & logs & E & Hl & _ & Hfail & Hok).
      eexists _, _, _. split; [exact E|].
      split; [rewrite (imports_after_push _ _ _ _ _ Hno Hl); cbn; lia|].
      split; [|now apply Hbranches with (a := after_import crl err) (w' := w5)].
      intros endpoint. destruct err as [e|].
      * left. rewrite (Hfail e eq_refl). now rewrite Fc.
      * rewrite (Hok eq_refl).
        destruct (String.eqb_spec endpoint (ClientVPNEndpointID r)) as [->|Hd].
        -- right. exists (string_of_bytes crl).
           split; [reflexivity|]. split; [now apply imports_after_push|].
           apply cvpn_crl_set.
        -- left. cbn. apply String.eqb_neq in Hd. now rewrite Hd, Fc.
Qed.

Lemma UpdateCRL_at_most_one_import_witness :
  exists a w' evs,
    UpdateCRL req0 world0 = Returned a w' evs /\
    List.length (imports evs) <= 1 /\
    imports evs = [EvImport "cvpn-1" "a1" None].
Proof.
  destruct (UpdateCRL_at_most_one_import req0 world0)
    as (a & w' & evs & E & Hle & _ & Hbr).
  exists a, w', evs. split; [exact E|]. split; [exact Hle|].
  destruct (proj2 (Hbr _ _ _ _ world0_reaches_diff)) as (err & Himp);
    [discriminate|].
  rewrite Himp. rewrite Himp in Hle.
  assert (Herr : imports (events (UpdateCRL req0 world0)) = [EvImport "cvpn-1" "a1" None])
    by reflexivity.
  rewrite E in Herr. cbn [events] in Herr. now rewrite <- Herr, Himp.
Defined.

(** [UpdateCRL] never rotates the CRL of the PKI mount. *)
Lemma UpdateCRL_vault_crl_number r w a w' evs :
  UpdateCRL r w = Returned a w' evs -> vault_crl_number w' = vault_crl_number w.
Proof.
  intros E.
  destruct (UpdateCRL_stages r w)
    as [(e & w1 & evs1 & E1 & F & _)|(crl & out & w4 & pre & Hr & F & _)].
  - rewrite E1 in E. injection E as _ <- _. apply F.
  - assert (Fn : vault_crl_number w4 = vault_crl_number w) by apply F.
    destruct (installed_dec (CertificateRevocationList out) (string_of_bytes crl))
      as [He|Hne].
    + rewrite (UpdateCRL_no_push _ _ _ _ _ _ Hr He) in E. injection E as _ <- _.
      exact Fn.
    + destruct (UpdateCRL_pushes _ _ _ _ _ _ Hr Hne)
        as (err & w5 & logs & E' & _ & _ & Hfail & Hok).
      rewrite E' in E. injection E as _ <- _. destruct err as [e|].
      * now rewrite (Hfail e eq_refl).
      * now rewrite (Hok eq_refl).
Qed.

(** C9 - [RotateCRL] issues the rotate request first.  If the request
    fails, its error is returned and nothing else is called.  If it
    succeeds, [UpdateCRL] runs on the rotated PKI mount and [RotateCRL]
    returns what [UpdateCRL] returns as error, after the calls of
    [UpdateCRL] and no other; whether [UpdateCRL] fails or not, the PKI
    mount stays rotated. *)
Theorem RotateCRL_rotates_then_updates r w :
  (forall e,
      vault_request_error w (rotateRequest (rc_VaultPKIPath r)) = Some e ->
      RotateCRL r w
      = Returned (Some e) w [EvRawRequest (rotateRequest (rc_VaultPKIPath r)) (Some e)])
  /\
  (vault_request_error w (rotateRequest (rc_VaultPKIPath r)) = None ->
   forall crl err w2 ev2,
     UpdateCRL (updateRequest r) (rotated w) = Returned (crl, err) w2 ev2 ->
     RotateCRL r w
     = Returned err w2 (EvRawRequest (rotateRequest (rc_VaultPKIPath r)) None :: ev2)
     /\ vault_crl_number w2 = S (vault_crl_number w)).
Proof.
  split.
  - intros e He. unfold RotateCRL, bind, RawRequest.
    fold (rotateRequest (rc_VaultPKIPath r)). now rewrite He.
  - intros Hok crl err w2 ev2 E. split.
    + unfold RotateCRL, bind, RawRequest.
      fold (rotateRequest (rc_VaultPKIPath r)); fold (updateRequest r).
      rewrite Hok, is_rotate_rotate. fold (rotated w). rewrite E.
      destruct err; cbn [ret]; now ev_norm.
    + now rewrite (UpdateCRL_vault_crl_number _ _ _ _ _ E).
Qed.

Lemma RotateCRL_rotates_then_updates_witness :
  RotateCRL rotate0 world_rotate_down
  = Returned (Some "permission denied") world_rotate_down
      [EvRawRequest (rotateRequest "pki") (Some "permission denied")]
  /\
  (RotateCRL rotate0 world_push_rejected
   = Returned (Some "InvalidParameterValue")
       (set_vault_revoked ["a1"] (rotated world_push_rejected))
       [EvRawRequest (rotateRequest "pki") None;
        EvListUsers (listUsersRequest req0) None;
        EvRevoke "pki" "a1" None;
        EvRawRequest (pemRequest "pki") None; EvReadAll None; EvBodyClose;
        EvExport "cvpn-1" None;
        EvImport "cvpn-1" "a1#" (Some "InvalidParameterValue")]
   /\ vault_crl_number (set_vault_revoked ["a1"] (rotated world_push_rejected)) = 1).
Proof.
  split.
  - apply (proj1 (RotateCRL_rotates_then_updates rotate0 world_rotate_down)).
    reflexivity.
  - apply (proj2 (RotateCRL_rotates_then_updates rotate0 world_push_rejected)
             eq_refl [] (Some "InvalidParameterValue")).
    reflexivity.
Defined.

Lemma NoDup_app_disjoint {A : Type} (l1 l2 : list A) :
  NoDup (l1 ++ l2) -> forall x, In x l1 -> In x l2 -> False.
Proof.
  induction l1 as [|a l1 IH]; intros Hnd x H1 H2; [contradiction|].
  cbn in Hnd. inversion Hnd as [|? ? Hna Hnd']; subst.
  destruct H1 as [->|H1].
  - apply Hna. apply in_or_app. now right.
  - now apply (IH Hnd' x).
Qed.

Lemma NoDup_app_tail {A : Type} (l1 l2 : list A) : NoDup (l1 ++ l2) -> NoDup l2.
Proof.
  induction l1 as [|a l1 IH]; intros Hnd; [assumption|].
  cbn in Hnd. inversion Hnd; subst. now apply IH.
Qed.

Lemma NoDup_app_head {A : Type} (l1 l2 : list A) : NoDup (l1 ++ l2) -> NoDup l1.
Proof.
  induction l1 as [|a l1 IH]; intros Hnd; [constructor|].
  cbn in Hnd. inversion Hnd as [|? ? Hna Hnd']; subst. constructor.
  - intros Hin. apply Hna. apply in_or_app. now left.
  - now apply IH.
Qed.

(** *** The latest certificate *)

Lemma latest_nonempty crts : crts <> [] -> exists l, latest crts = Some l.
Proof.
  destruct crts as [|c rest]; [contradiction|]. intros _. cbn [latest].
  destruct (latest rest) as [l|]; [|eauto].
  destruct (IssuedAt l <? IssuedAt c)%Z; eauto.
Qed.

Lemma latest_In crts : forall l, latest crts = Some l -> In l crts.
Proof.
  induction crts as [|c rest IH]; intros l H; cbn [latest] in H; [discriminate|].
  destruct (latest rest) as [l'|].
  - destruct (IssuedAt l' <? IssuedAt c)%Z; injection H as <-.
    + now left.
    + right. now apply IH.
  - injection H as <-. now left.
Qed.

Lemma latest_max crts : forall l,
  latest crts = Some l -> forall c, In c crts -> (IssuedAt c <= IssuedAt l)%Z.
Proof.
  induction crts as [|c0 rest IH]; intros l H c Hin; [contradiction|].
  cbn [latest] in H. destruct (latest rest) as [l'|] eqn:E.
  - specialize (IH l' eq_refl).
    destruct (Z.ltb_spec (IssuedAt l') (IssuedAt c0)); injection H as <-;
      destruct Hin as [<-|Hin]; try lia.
    + specialize (IH c Hin). lia.
    + now apply IH.
  - injection H as <-. destruct Hin as [<-|Hin]; [lia|].
    destruct rest; [contradiction | ].
    destruct (latest_nonempty (c1 :: rest)) as [x Hx]; [discriminate | congruence].
Qed.

Lemma toRevoke_keep crts l c :
  latest crts = Some l ->
  In c (toRevoke crts false) <-> In c crts /\ Identifier c <> Identifier l.
Proof.
  intros H. unfold toRevoke. rewrite H, filter_In, negb_true_iff, String.eqb_neq.
  reflexivity.
Qed.

Lemma toRevoke_keep_incl crts c : In c (toRevoke crts false) -> In c crts.
Proof.
  unfold toRevoke. destruct (latest crts); [|contradiction].
  rewrite filter_In. tauto.
Qed.

Lemma targets_ids users id :
  In id (map Identifier (targets users)) -> In id (all_ids users).
Proof.
  unfold targets, all_ids. rewrite in_map_iff.
  intros (c & <- & Hc). apply in_flat_map in Hc. destruct Hc as (u & Hu & Hc).
  apply in_flat_map. exists u. split; [assumption|].
  apply in_map. now apply toRevoke_keep_incl.
Qed.

(** With identifiers that name one certificate of one user, the latest
    certificate of a user is not among those the loop revokes. *)
Lemma latest_not_target users u crts l :
  NoDup (all_ids users) -> In (u, crts) users -> latest crts = Some l ->
  ~ In (Identifier l) (map Identifier (targets users)).
Proof.
  intros Hnd Hin Hl Ht.
  apply in_split in Hin. destruct Hin as (us1 & us2 & ->).
  unfold all_ids in Hnd. rewrite flat_map_app in Hnd. cbn [flat_map snd] in Hnd.
  fold (all_ids us1) in Hnd. fold (all_ids us2) in Hnd.
  assert (Hl_in : In (Identifier l) (map Identifier crts))
    by (apply in_map; now apply latest_In).
  unfold targets in Ht. rewrite flat_map_app, map_app in Ht. cbn [flat_map snd] in Ht.
  rewrite map_app in Ht. fold (targets us1) in Ht. fold (targets us2) in Ht.
  rewrite !in_app_iff in Ht. destruct Ht as [Ht|[Ht|Ht]].
  - apply targets_ids in Ht.
    apply (NoDup_app_disjoint _ _ Hnd (Identifier l)); [assumption|].
    apply in_or_app. now left.
  - apply in_map_iff in Ht. destruct Ht as (c & Hid & Hc).
    apply (toRevoke_keep crts l c Hl) in Hc. now destruct Hc.
  - apply targets_ids in Ht.
    apply NoDup_app_tail in Hnd.
    now apply (NoDup_app_disjoint _ _ Hnd (Identifier l)).
Qed.


(** *** Live certificates *)

Lemma live_none w crts :
  (forall c, In c crts -> is_revoked w (Identifier c) = true) -> live w crts = [].
Proof.
  induction crts as [|c rest IH]; intros H; [reflexivity|].
  unfold live in *. cbn [filter]. rewrite (H c (or_introl eq_refl)). cbn [negb].
  apply IH. intros c' Hc'. apply H. now right.
Qed.

Lemma live_single w crts l :
  NoDup (map Identifier crts) -> In l crts ->
  (forall c, In c crts -> Identifier c <> Identifier l ->
             is_revoked w (Identifier c) = true) ->
  live w crts = if is_revoked w (Identifier l) then [] else [l].
Proof.
  induction crts as [|c rest IH]; intros Hnd Hin Hrev; [contradiction|].
  cbn [map] in Hnd. inversion Hnd as [|? ? Hnotin Hnd']; subst.
  unfold live in *. cbn [filter]. destruct Hin as [->|Hin].
  - assert (Hrest : filter (fun c => negb (is_revoked w (Identifier c))) rest = []).
    { apply live_none. intros c' Hc'. apply Hrev; [now right|].
      intros Heq. apply Hnotin. rewrite <- Heq. now apply in_map. }
    rewrite Hrest. now destruct (is_revoked w (Identifier l)).
  - assert (Hne : Identifier c <> Identifier l).
    { intros Heq. apply Hnotin. rewrite Heq. now apply in_map. }
    rewrite (Hrev c (or_introl eq_refl) Hne). cbn [negb].
    apply IH; [assumption | assumption |].
    intros c' Hc'. apply Hrev. now right.
Qed.

Lemma all_ids_user users u crts :
  NoDup (all_ids users) -> In (u, crts) users -> NoDup (map Identifier crts).
Proof.
  intros Hnd Hin. apply in_split in Hin. destruct Hin as (us1 & us2 & ->).
  unfold all_ids in Hnd. rewrite flat_map_app in Hnd. cbn [flat_map snd] in Hnd.
  apply NoDup_app_tail in Hnd. now apply NoDup_app_head in Hnd.
Qed.

(** Whatever happens after the loop, a run of [UpdateCRL] whose loop
    succeeded ends with the revoked set the loop left. *)
Lemma UpdateCRL_after_loop r w users w2 ev2 :
  vault_users w (listUsersRequest r) = (users, None) ->
  rangeUsers (VaultPKIPath r) users w = Returned None w2 ev2 ->
  exists a w' evs,
    UpdateCRL r w = Returned a w' evs /\ vault_revoked w' = vault_revoked w2.
Proof.
  intros Hu Hl.
  destruct (GetCRL_returns (getCRLRequest r) w2) as (crl & gerr & ev3 & Hg & _).
  destruct (Export_returns (ClientVPNEndpointID r) w2) as (out & xe & He).
  destruct xe as [xe|].
  - eexists _, w2, _. split; [|reflexivity].
    unfold UpdateCRL, bind, ListUsers. fold (listUsersRequest r).
    fold (getCRLRequest r). rewrite Hu, Hl, Hg, He. reflexivity.
  - assert (Hr : reaches_diff r w crl out w2
                   (EvListUsers (listUsersRequest r) None
                      :: ev2 ++ ev3 ++ [EvExport (ClientVPNEndpointID r) None])).
    { exists users, w2, ev2, gerr, w2, ev3, [EvExport (ClientVPNEndpointID r) None].
      repeat split; assumption. }
    rewrite (UpdateCRL_at_diff _ _ _ _ _ _ Hr). cbn zeta.
    destruct (CertificateRevocationList out) as [installed|].
    + destruct (installed =? string_of_bytes crl)%string; [eauto|].
      destruct (cvpn_import_error w2 (ClientVPNEndpointID r) (string_of_bytes crl));
        eexists _, _, _; split; reflexivity.
    + destruct (cvpn_import_error w2 (ClientVPNEndpointID r) (string_of_bytes crl));
        eexists _, _, _; split; reflexivity.
Qed.

Lemma live_same_revoked w w' crts :
  vault_revoked w' = vault_revoked w -> live w' crts = live w crts.
Proof. intros H. unfold live, is_revoked. now rewrite H. Qed.

(** C3, as amended - after a successful convergence run invoked by
    [UpdateCRL] (the loop over the users returned no error; whatever the
    later steps do, the run of [UpdateCRL] ends with the revoked set the
    loop left), each user who has certificates has at most one that is not
    revoked, and it can only be the latest one, the one with the greatest
    issuance timestamp: every certificate of the user with another
    identifier is revoked.  The latest one is revoked after the run exactly
    when it was revoked before or is an older certificate in another
    user's list; so, when all enumerated identifiers are distinct, the live
    certificates of the user are the latest alone if it was not revoked
    before the run, and none otherwise. *)
Theorem UpdateCRL_keeps_only_latest r w users w2 ev2 :
  vault_users w (listUsersRequest r) = (users, None) ->
  rangeUsers (VaultPKIPath r) users w = Returned None w2 ev2 ->
  (exists a w' evs,
      UpdateCRL r w = Returned a w' evs /\
      forall crts, live w' crts = live w2 crts)
  /\
  forall u crts, In (u, crts) users -> crts <> [] ->
  exists l,
    latest crts = Some l /\ In l crts /\
    (forall c, In c crts -> (IssuedAt c <= IssuedAt l)%Z) /\
    (forall c, In c crts -> Identifier c <> Identifier l ->
               is_revoked w2 (Identifier c) = true) /\
    (forall c, In c (live w2 crts) -> Identifier c = Identifier l) /\
    (is_revoked w2 (Identifier l) = true <->
     is_revoked w (Identifier l) = true \/
     In (Identifier l) (map Identifier (targets users))) /\
    (NoDup (all_ids users) ->
     live w2 crts = (if is_revoked w (Identifier l) then [] else [l]) /\
     List.length (live w2 crts) <= 1).
Proof.
  intros Hu Hloop. split.
  { destruct (UpdateCRL_after_loop r w users w2 ev2 Hu Hloop) as (a & w' & evs & E & Hrv).
    exists a, w', evs. split; [exact E|]. intros crts. now apply live_same_revoked. }
  intros u crts Hin Hne.
  destruct (latest_nonempty crts Hne) as [l Hl]. exists l.
  split; [assumption|]. split; [now apply latest_In|].
  split; [now apply latest_max|].
  destruct (rangeUsers_spec (VaultPKIPath r) users w)
    as (err & w2' & ev2' & Hloop' & _ & _ & Hok).
  rewrite Hloop in Hloop'. injection Hloop' as <- <- <-.
  specialize (Hok eq_refl).
  assert (Hothers : forall c, In c crts -> Identifier c <> Identifier l ->
                              is_revoked w2 (Identifier c) = true).
  { intros c Hc Hid. apply Hok. right.
    apply in_map. unfold targets. apply in_flat_map. exists (u, crts).
    split; [assumption|]. cbn [snd]. now apply (toRevoke_keep crts l c Hl). }
  split; [exact Hothers|]. split; [|split; [apply Hok|]].
  - intros c Hc. unfold live in Hc. apply filter_In in Hc. destruct Hc as [Hc Hlive].
    destruct (string_dec (Identifier c) (Identifier l)) as [Heq|Hd]; [exact Heq|].
    rewrite (Hothers c Hc Hd) in Hlive. discriminate.
  - intros Hnd.
    assert (Hlive : live w2 crts = if is_revoked w2 (Identifier l) then [] else [l]).
    { apply live_single; [now apply (all_ids_user users u) | now apply latest_In |].
      exact Hothers. }
    assert (Hl_same : is_revoked w2 (Identifier l) = is_revoked w (Identifier l)).
    { destruct (is_revoked w (Identifier l)) eqn:R.
      - apply Hok. now left.
      - destruct (is_revoked w2 (Identifier l)) eqn:R2; [|reflexivity].
        apply Hok in R2. destruct R2 as [R2|R2]; [congruence|].
        now apply (latest_not_target users u crts l Hnd Hin Hl) in R2. }
    rewrite Hlive, Hl_same. split; [reflexivity|].
    destruct (is_revoked w (Identifier l)); cbn; lia.
Qed.

Lemma UpdateCRL_keeps_only_latest_witness :
  (exists a w' evs,
      UpdateCRL req0 world_export_down = Returned a w' evs /\
      forall crts,
        live w' crts = live (set_vault_revoked ["a1"] world_export_down) crts)
  /\
  forall u crts, In (u, crts) [alice] -> crts <> [] ->
  exists l,
    latest crts = Some l /\ In l crts /\
    (forall c, In c crts -> (IssuedAt c <= IssuedAt l)%Z) /\
    (forall c, In c crts -> Identifier c <> Identifier l ->
               is_revoked (set_vault_revoked ["a1"] world_export_down) (Identifier c)
               = true) /\
    (forall c, In c (live (set_vault_revoked ["a1"] world_export_down) crts) ->
               Identifier c = Identifier l) /\
    (is_revoked (set_vault_revoked ["a1"] world_export_down) (Identifier l) = true <->
     is_revoked world_export_down (Identifier l) = true \/
     In (Identifier l) (map Identifier (targets [alice]))) /\
    (NoDup (all_ids [alice]) ->
     live (set_vault_revoked ["a1"] world_export_down) crts
     = (if is_revoked world_export_down (Identifier l) then [] else [l]) /\
     List.length (live (set_vault_revoked ["a1"] world_export_down) crts) <= 1).
Proof.
  apply (UpdateCRL_keeps_only_latest req0 world_export_down [alice]
           (set_vault_revoked ["a1"] world_export_down) [EvRevoke "pki" "a1" None]);
    reflexivity.
Defined.

(** C3, as stated - a user whose latest certificate was already revoked
    has no live certificate after the run, not one; and so has a user
    whose latest certificate is an older certificate in another user's
    list, although nothing was revoked before. *)
Lemma one_live_certificate_each_fails :
  ~ one_live_certificate_each req0 world_deprovisioned /\
  ~ one_live_certificate_each req0 world_shared_identifier.
Proof.
  split.
  - intros H.
    destruct (H [("alice", [cert "a1" 1; cert "a2" 5]); ("bob", [cert "b1" 3])]
                (list_byte_of_string "a1,b1")
                (set_cvpn_crl "cvpn-1" "a1,b1"
                   (set_vault_revoked ["a1"; "b1"] world0))
                (events (UpdateCRL req0 world_deprovisioned))
                eq_refl eq_refl "bob" [cert "b1" 3])
      as (l & _ & Hlive).
    + right. now left.
    + discriminate.
    + discriminate.
  - intros H.
    destruct (H [("alice", [cert "a1" 1; cert "s" 5]); ("bob", [cert "s" 2; cert "b2" 6])]
                (list_byte_of_string "s,a1")
                (final (UpdateCRL req0 world_shared_identifier))
                (events (UpdateCRL req0 world_shared_identifier))
                eq_refl eq_refl "alice" [cert "a1" 1; cert "s" 5])
      as (l & _ & Hlive).
    + now left.
    + discriminate.
    + discriminate.
Qed.

(** *** Running again *)











(** ** Further properties of the operations *)

(** *** [GetCRL] *)

(** X1 - [GetCRL] only reads: whatever the mount path and whatever the
    outcome, it returns (it does not panic) and leaves the PKI mount and
    the endpoints exactly as they were - in particular its request is never
    taken for a rotation.  The calls it makes are one [GET] request, whose
    error is the one it returns, and the read and the close of the body:
    no gateway call and no revoke call. *)
Theorem GetCRL_reads_only r w :
  exists data err evs req,
    GetCRL r w = Returned (data, err) w evs /\
    filter is_request evs = [EvRawRequest req err] /\
    Method req = "GET" /\
    Forall (fun ev => is_request ev || is_read ev || is_close ev = true) evs /\
    filter is_gateway evs = [] /\
    filter is_revoke evs = [].
Proof.
  rewrite GetCRL_run.
  destruct (vault_request_error w (pemRequest (gc_VaultPKIPath r))) as [e|];
    cbn zeta; eexists _, _, _, _;
    (split; [reflexivity|]); (split; [reflexivity|]); (split; [reflexivity|]);
    (split; [repeat constructor|]); split; reflexivity.
Qed.

(** X2 - the error contract of [GetCRL]: the error it returns is the error
    of [RawRequest], nothing else.  When the request fails the data are nil
    and no body is read or closed; when it is answered the body is read
    once, then closed once, and the data are the bytes read, whether or not
    the read ended in an error. *)
Theorem GetCRL_error_is_request_error r w :
  let req := pemRequest (gc_VaultPKIPath r) in
  let body := vault_body w req (vault_revoked w) (vault_crl_number w) in
  exists data evs,
    GetCRL r w = Returned (data, vault_request_error w req) w evs /\
    (forall e, vault_request_error w req = Some e ->
               data = [] /\ evs = [EvRawRequest req (Some e)]) /\
    (vault_request_error w req = None ->
     data = fst body /\
     evs = [EvRawRequest req None; EvReadAll (snd body); EvBodyClose]).
Proof.
  intros req body. rewrite GetCRL_run. fold req.
  destruct (vault_request_error w req) as [e|]; cbn zeta; fold body.
  - eexists _, _. split; [reflexivity|]. split; [|discriminate].
    intros e' [= <-]. now split.
  - eexists _, _. split; [reflexivity|]. split; [discriminate|].
    intros _. now split.
Qed.

Lemma GetCRL_error_is_request_error_witness :
  exists data evs,
    GetCRL {| gc_VaultPKIPath := "pki" |} world_fetch_down
    = Returned (data, Some "connection refused") world_fetch_down evs /\
    data = [] /\
    evs = [EvRawRequest (pemRequest "pki") (Some "connection refused")].
Proof.
  destruct (GetCRL_error_is_request_error {| gc_VaultPKIPath := "pki" |} world_fetch_down)
    as (data & evs & E & Hfail & _).
  exists data, evs. split; [exact E|].
  apply (Hfail "connection refused"). reflexivity.
Defined.

(** *** [UpdateCRL] *)

(** The calls made up to the comparison: the enumeration, revoke calls, the
    calls of [GetCRL], and the answered export call. *)
Lemma reaches_diff_calls r w crl out w4 pre :
  reaches_diff r w crl out w4 pre ->
  exists ev2 ev3,
    pre = EvListUsers (listUsersRequest r) None
            :: ev2 ++ ev3 ++ [EvExport (ClientVPNEndpointID r) None] /\
    Forall (fun ev => is_revoke ev = true) ev2 /\
    ((exists e, ev3 = [EvRawRequest (pemRequest (VaultPKIPath r)) (Some e)]) \/
     (exists rerr, ev3 = [EvRawRequest (pemRequest (VaultPKIPath r)) None;
                          EvReadAll rerr; EvBodyClose])).
Proof.
  intros (users & w2 & ev2 & gerr & w3 & ev3 & ev4 & Hu & Hl & Hg & He & ->).
  destruct (rangeUsers_spec (VaultPKIPath r) users w)
    as (err & w2' & ev2' & Hl' & Hev & _).
  rewrite Hl in Hl'. injection Hl' as <- <- <-.
  rewrite GetCRL_run in Hg. cbn [getCRLRequest gc_VaultPKIPath] in Hg.
  destruct (Export_run _ _ _ _ _ _ He) as (_ & -> & _).
  exists ev2, ev3. split; [reflexivity|]. split; [exact Hev|].
  destruct (vault_request_error w2 (pemRequest (VaultPKIPath r))) as [e|];
    cbn zeta in Hg; injection Hg as _ _ _ <-; eauto.
Qed.

(** Filtering the calls made up to the comparison, for a kind of call that
    is neither the enumeration, nor a revoke call, nor the export call. *)
Lemma filter_calls (p : Event -> bool) lreq ev2 ev3 id :
  Forall (fun ev => is_revoke ev = true) ev2 ->
  (forall ev, is_revoke ev = true -> p ev = false) ->
  p (EvListUsers lreq None) = false ->
  p (EvExport id None) = false ->
  filter p (EvListUsers lreq None :: ev2 ++ ev3 ++ [EvExport id None]) = filter p ev3.
Proof.
  intros Hev Hp Hl Hx. cbn [filter]. rewrite Hl, !filter_app.
  rewrite (revokes_only_filter p ev2 Hev Hp). cbn [filter app]. rewrite Hx.
  apply app_nil_r.
Qed.

(** X3 - an error never comes with data: whenever [UpdateCRL] returns a
    non-nil error, the bytes it returns are nil, also when the CRL had
    already been fetched. *)
Theorem UpdateCRL_error_without_data r w crl e w' evs :
  UpdateCRL r w = Returned (crl, Some e) w' evs -> crl = [].
Proof.
  intros E.
  destruct (UpdateCRL_stages r w)
    as [(e1 & w1 & evs1 & E1 & _)|(crl' & out & w4 & pre & Hr & _)].
  - rewrite E1 in E. now injection E as <- _ _ _.
  - destruct (installed_dec (CertificateRevocationList out) (string_of_bytes crl'))
      as [He|Hne].
    + rewrite (UpdateCRL_no_push _ _ _ _ _ _ Hr He) in E. discriminate.
    + destruct (UpdateCRL_pushes _ _ _ _ _ _ Hr Hne) as (err & w5 & logs & E' & _).
      rewrite E' in E. destruct err as [e'|]; cbn [after_import] in E.
      * now injection E as <- _ _ _.
      * discriminate.
Qed.

Lemma UpdateCRL_error_without_data_witness :
  match UpdateCRL req0 world_push_rejected with
  | Returned (crl, Some _) _ _ => crl = []
  | _ => False
  end.
Proof.
  destruct (UpdateCRL req0 world_push_rejected) as [[crl [e|]] w' evs|w' evs] eqn:E.
  - exact (UpdateCRL_error_without_data req0 world_push_rejected crl e w' evs E).
  - vm_compute in E. discriminate E.
  - vm_compute in E. discriminate E.
Defined.

(** X4 - when the endpoint cannot be read, [UpdateCRL] returns the error of
    the export call after having fetched the CRL: no import call is made,
    nothing is logged, the endpoints' CRLs are what they were, and the
    world is the one the revocation loop left: the revocations made are
    not taken back. *)
Theorem UpdateCRL_export_fails r w users w2 ev2 e :
  vault_users w (listUsersRequest r) = (users, None) ->
  rangeUsers (VaultPKIPath r) users w = Returned None w2 ev2 ->
  cvpn_export_error w2 (ClientVPNEndpointID r) = Some e ->
  exists crl gerr ev3,
    GetCRL (getCRLRequest r) w2 = Returned (crl, gerr) w2 ev3 /\
    UpdateCRL r w
    = Returned ([], Some e) w2
        (EvListUsers (listUsersRequest r) None
           :: ev2 ++ ev3 ++ [EvExport (ClientVPNEndpointID r) (Some e)]) /\
    imports (events (UpdateCRL r w)) = [] /\
    filter is_log (events (UpdateCRL r w)) = [] /\
    cvpn_crl w2 = cvpn_crl w.
Proof.
  intros Hu Hl Hx.
  destruct (GetCRL_returns (getCRLRequest r) w2) as (crl & gerr & ev3 & Hg & Hno3).
  destruct (rangeUsers_spec (VaultPKIPath r) users w)
    as (err & w2' & ev2' & Hl' & Hev & F & _).
  rewrite Hl in Hl'. injection Hl' as <- <- <-.
  assert (E : UpdateCRL r w
              = Returned ([], Some e) w2
                  (EvListUsers (listUsersRequest r) None
                     :: ev2 ++ ev3 ++ [EvExport (ClientVPNEndpointID r) (Some e)])).
  { unfold UpdateCRL, bind, ListUsers. fold (listUsersRequest r).
    fold (getCRLRequest r). rewrite Hu, Hl, Hg.
    unfold ExportClientVpnClientCertificateRevocationList. rewrite Hx.
    cbn [snd ret]. now ev_norm. }
  exists crl, gerr, ev3. split; [exact Hg|]. split; [exact E|].
  rewrite E. cbn [events]. split; [|split; [|apply F]].
  - unfold imports in *. cbn [filter is_import].
    rewrite !filter_app, Hno3, (revokes_only_filter is_import ev2 Hev);
      [reflexivity | now intros []].
  - cbn [filter is_log]. rewrite !filter_app.
    rewrite (revokes_only_filter is_log ev2 Hev) by now intros [].
    rewrite GetCRL_run in Hg.
    destruct (vault_request_error w2 (pemRequest (gc_VaultPKIPath (getCRLRequest r))));
      cbn zeta in Hg; injection Hg as _ _ <-; reflexivity.
Qed.

Lemma UpdateCRL_export_fails_witness :
  exists crl gerr ev3,
    GetCRL (getCRLRequest req0) (set_vault_revoked ["a1"] world_export_down)
    = Returned (crl, gerr) (set_vault_revoked ["a1"] world_export_down) ev3 /\
    UpdateCRL req0 world_export_down
    = Returned ([], Some "RequestLimitExceeded")
        (set_vault_revoked ["a1"] world_export_down)
        (EvListUsers (listUsersRequest req0) None
           :: [EvRevoke "pki" "a1" None] ++ ev3
              ++ [EvExport "cvpn-1" (Some "RequestLimitExceeded")]) /\
    imports (events (UpdateCRL req0 world_export_down)) = [] /\
    filter is_log (events (UpdateCRL req0 world_export_down)) = [] /\
    cvpn_crl (set_vault_revoked ["a1"] world_export_down) = cvpn_crl world_export_down.
Proof.
  apply (UpdateCRL_export_fails req0 world_export_down [alice]
           (set_vault_revoked ["a1"] world_export_down) [EvRevoke "pki" "a1" None]
           "RequestLimitExceeded"); reflexivity.
Defined.

(** X5 - when the endpoint rejects the import, [UpdateCRL] returns that
    error with nil data and the endpoint keeps the CRL it had.  The two
    branches differ in what they log: replacing a CRL logs nothing on
    failure, while the first upload logs its line before it looks at the
    error, so the line is there although nothing was uploaded. *)
Theorem UpdateCRL_import_rejected r w crl out w4 pre e :
  reaches_diff r w crl out w4 pre ->
  CertificateRevocationList out <> Some (string_of_bytes crl) ->
  cvpn_import_error w4 (ClientVPNEndpointID r) (string_of_bytes crl) = Some e ->
  UpdateCRL r w
  = Returned ([], Some e) w4
      (pre ++ EvImport (ClientVPNEndpointID r) (string_of_bytes crl) (Some e)
           :: lines_after_rejected_import (CertificateRevocationList out))
  /\ cvpn_crl w4 (ClientVPNEndpointID r) = CertificateRevocationList out
  /\ cvpn_crl w4 = cvpn_crl w.
Proof.
  intros Hr Hne He.
  destruct (reaches_diff_frame _ _ _ _ _ _ Hr) as (_ & F & Hout).
  split; [|split; [now symmetry | apply F]].
  rewrite (UpdateCRL_at_diff _ _ _ _ _ _ Hr). cbn zeta.
  destruct (CertificateRevocationList out) as [installed|];
    cbn [lines_after_rejected_import].
  - destruct (String.eqb_spec installed (string_of_bytes crl)) as [->|_];
      [now contradiction Hne|].
    now rewrite He.
  - now rewrite He.
Qed.

Lemma world_first_push_rejected_reaches_diff :
  reaches_diff req0 world_first_push_rejected (list_byte_of_string "a1")
    {| CertificateRevocationList := None |}
    (set_vault_revoked ["a1"] world_first_push_rejected) calls0.
Proof.
  exists [alice], (set_vault_revoked ["a1"] world_first_push_rejected),
    [EvRevoke "pki" "a1" None], None,
    (set_vault_revoked ["a1"] world_first_push_rejected),
    [EvRawRequest (pemRequest "pki") None; EvReadAll None; EvBodyClose],
    [EvExport "cvpn-1" None].
  repeat split.
Qed.

Lemma world_push_rejected_reaches_diff :
  reaches_diff req0 world_push_rejected (list_byte_of_string "a1")
    {| CertificateRevocationList := Some "OLD" |}
    (set_vault_revoked ["a1"] world_push_rejected) calls0.
Proof.
  exists [alice], (set_vault_revoked ["a1"] world_push_rejected),
    [EvRevoke "pki" "a1" None], None,
    (set_vault_revoked ["a1"] world_push_rejected),
    [EvRawRequest (pemRequest "pki") None; EvReadAll None; EvBodyClose],
    [EvExport "cvpn-1" None].
  repeat split.
Qed.

Lemma UpdateCRL_import_rejected_witness :
  UpdateCRL req0 world_first_push_rejected
  = Returned ([], Some "InvalidParameterValue")
      (set_vault_revoked ["a1"] world_first_push_rejected)
      (calls0 ++ [EvImport "cvpn-1" "a1" (Some "InvalidParameterValue");
                  EvLog "First upload of CRL to the CPN endpoint"])
  /\
  UpdateCRL req0 world_push_rejected
  = Returned ([], Some "InvalidParameterValue")
      (set_vault_revoked ["a1"] world_push_rejected)
      (calls0 ++ [EvImport "cvpn-1" "a1" (Some "InvalidParameterValue")]).
Proof.
  split.
  - refine (proj1 (UpdateCRL_import_rejected req0 world_first_push_rejected _ _ _ _
                     "InvalidParameterValue"
                     world_first_push_rejected_reaches_diff _ _));
      [discriminate | reflexivity].
  - refine (proj1 (UpdateCRL_import_rejected req0 world_push_rejected _ _ _ _
                     "InvalidParameterValue"
                     world_push_rejected_reaches_diff _ _));
      [discriminate | reflexivity].
Defined.

(** Nothing is logged before the comparison. *)
Lemma reaches_diff_no_log r w crl out w4 pre :
  reaches_diff r w crl out w4 pre -> filter is_log pre = [].
Proof.
  intros Hr. destruct (reaches_diff_calls _ _ _ _ _ _ Hr) as (ev2 & ev3 & -> & Hev & H3).
  rewrite (filter_calls is_log _ _ _ _ Hev); try reflexivity; [|now intros []].
  destruct H3 as [(e & ->)|(rerr & ->)]; reflexivity.
Qed.

(** X6 - a run that gets through logs exactly one line, and the line tells
    the branch taken at the comparison: "CRL does not need to be updated"
    when the installed CRL is the fetched one, "Updated CRL in AWS Client
    VPN endpoint" when another CRL was installed, "First upload of CRL to
    the CPN endpoint" when none was. *)
Theorem UpdateCRL_logs_the_branch r w crl out w4 pre a w' evs :
  reaches_diff r w crl out w4 pre ->
  UpdateCRL r w = Returned a w' evs ->
  snd a = None ->
  filter is_log evs
  = [EvLog (branch_line (CertificateRevocationList out) (string_of_bytes crl))].
Proof.
  intros Hr E Hok. pose proof (reaches_diff_no_log _ _ _ _ _ _ Hr) as Hpre.
  rewrite (UpdateCRL_at_diff _ _ _ _ _ _ Hr) in E. cbn zeta in E.
  unfold branch_line.
  destruct (CertificateRevocationList out) as [installed|].
  - destruct (installed =? string_of_bytes crl)%string.
    + injection E as _ _ <-. now rewrite filter_app, Hpre.
    + destruct (cvpn_import_error w4 (ClientVPNEndpointID r) (string_of_bytes crl));
        injection E as <- _ <-; [discriminate Hok|].
      now rewrite filter_app, Hpre.
  - destruct (cvpn_import_error w4 (ClientVPNEndpointID r) (string_of_bytes crl));
      injection E as <- _ <-; [discriminate Hok|].
    now rewrite filter_app, Hpre.
Qed.

Lemma UpdateCRL_logs_the_branch_witness :
  filter is_log (events (UpdateCRL req0 world0))
  = [EvLog "First upload of CRL to the CPN endpoint"]
  /\
  filter is_log (events (UpdateCRL req0 world0_synced))
  = [EvLog "CRL does not need to be updated"].
Proof.
  split.
  - apply (UpdateCRL_logs_the_branch req0 world0 _ _ _ _
             (list_byte_of_string "a1", None) world0_synced
             (events (UpdateCRL req0 world0)) world0_reaches_diff);
      reflexivity.
  - apply (UpdateCRL_logs_the_branch req0 world0_synced _ _ _ _
             (list_byte_of_string "a1", None) world0_synced
             (events (UpdateCRL req0 world0_synced)) world0_synced_reaches_diff);
      reflexivity.
Defined.





(** X8 - the endpoint is never written blind: in every run, an import call
    comes right after an export call of the same endpoint that succeeded in
    that run, it is the only import call, and only log lines follow it. *)
Theorem UpdateCRL_import_follows_export r w :
  imports (events (UpdateCRL r w)) = [] \/
  exists before crl err after,
    events (UpdateCRL r w)
    = before ++ [EvExport (ClientVPNEndpointID r) None;
                 EvImport (ClientVPNEndpointID r) (string_of_bytes crl) err] ++ after /\
    imports before = [] /\
    Forall (fun ev => is_log ev = true) after.
Proof.
  destruct (UpdateCRL_stages r w)
    as [(e & w' & evs & E & _ & Hno)|(crl & out & w4 & pre & Hr & _ & Hno)].
  - left. now rewrite E.
  - destruct (installed_dec (CertificateRevocationList out) (string_of_bytes crl))
      as [He|Hne].
    + left. rewrite (UpdateCRL_no_push _ _ _ _ _ _ Hr He). cbn [events].
      now rewrite imports_after_log.
    + right. destruct (reaches_diff_calls _ _ _ _ _ _ Hr) as (ev2 & ev3 & Hpre & _).
      rewrite (UpdateCRL_at_diff _ _ _ _ _ _ Hr). cbn zeta.
      assert (Hb : imports (EvListUsers (listUsersRequest r) None :: ev2 ++ ev3) = []).
      { subst pre. unfold imports in *. cbn [filter is_import] in *.
        rewrite !filter_app in Hno. rewrite filter_app.
        apply app_eq_nil in Hno. destruct Hno as [H2 Hno].
        apply app_eq_nil in Hno. destruct Hno as [H3 _]. now rewrite H2, H3. }
      assert (Hsplit : forall tail,
                 pre ++ tail
                 = (EvListUsers (listUsersRequest r) None :: ev2 ++ ev3)
                     ++ [EvExport (ClientVPNEndpointID r) None] ++ tail).
      { intros tail. subst pre. cbn [app]. now rewrite <- !app_assoc. }
      exists (EvListUsers (listUsersRequest r) None :: ev2 ++ ev3), crl.
      destruct (CertificateRevocationList out) as [installed|].
      * destruct (String.eqb_spec installed (string_of_bytes crl)) as [->|_];
          [now contradiction Hne|].
        destruct (cvpn_import_error w4 (ClientVPNEndpointID r) (string_of_bytes crl))
          as [e|]; cbn [events]; rewrite Hsplit.
        -- exists (Some e), []. repeat split; [exact Hb | constructor].
        -- exists None, [EvLog "Updated CRL in AWS Client VPN endpoint"].
           repeat split; [exact Hb | repeat constructor].
      * destruct (cvpn_import_error w4 (ClientVPNEndpointID r) (string_of_bytes crl))
          as [e|]; cbn [events]; rewrite Hsplit.
        -- exists (Some e), [EvLog "First upload of CRL to the CPN endpoint"].
           repeat split; [exact Hb | repeat constructor].
        -- exists None, [EvLog "First upload of CRL to the CPN endpoint"].
           repeat split; [exact Hb | repeat constructor].
Qed.

(** The calls of any run of [UpdateCRL], in order: the enumeration, revoke
    calls, the calls of [GetCRL] (none if the run stopped before), then
    gateway calls and log lines. *)
Lemma UpdateCRL_calls r w :
  exists a w' err0 ev2 ev3 tail,
    UpdateCRL r w
    = Returned a w' (EvListUsers (listUsersRequest r) err0 :: ev2 ++ ev3 ++ tail) /\
    Forall (fun ev => is_revoke ev = true) ev2 /\
    (ev3 = [] \/
     (exists e, ev3 = [EvRawRequest (pemRequest (VaultPKIPath r)) (Some e)]) \/
     (exists rerr, ev3 = [EvRawRequest (pemRequest (VaultPKIPath r)) None;
                          EvReadAll rerr; EvBodyClose])) /\
    Forall (fun ev => is_gateway ev || is_log ev = true) tail.
Proof.
  destruct (vault_users w (listUsersRequest r)) as [users [e|]] eqn:Hu.
  - exists ([], Some e), w, (Some e), [], [], [].
    split; [|split; [constructor | split; [now left | constructor]]].
    unfold UpdateCRL, bind, ListUsers. fold (listUsersRequest r). now rewrite Hu.
  - destruct (rangeUsers_spec (VaultPKIPath r) users w)
      as (err & w2 & ev2 & Hl & Hev2 & _).
    destruct err as [e|].
    + exists ([], Some e), w2, None, ev2, [], [].
      split; [|split; [exact Hev2 | split; [now left | constructor]]].
      unfold UpdateCRL, bind, ListUsers. fold (listUsersRequest r).
      rewrite Hu, Hl. reflexivity.
    + destruct (GetCRL_returns (getCRLRequest r) w2) as (crl & gerr & ev3 & Hg & _).
      assert (H3 : (exists e, ev3 = [EvRawRequest (pemRequest (VaultPKIPath r)) (Some e)]) \/
                   (exists rerr, ev3 = [EvRawRequest (pemRequest (VaultPKIPath r)) None;
                                        EvReadAll rerr; EvBodyClose])).
      { pose proof Hg as Hg'. rewrite GetCRL_run in Hg'.
        cbn [getCRLRequest gc_VaultPKIPath] in Hg'.
        destruct (vault_request_error w2 (pemRequest (VaultPKIPath r)));
          cbn zeta in Hg'; injection Hg' as _ _ <-; eauto. }
      destruct (Export_returns (ClientVPNEndpointID r) w2) as (out & xe & He).
      destruct xe as [xe|].
      * exists ([], Some xe), w2, None, ev2, ev3,
          [EvExport (ClientVPNEndpointID r) (Some xe)].
        split; [|split; [exact Hev2 | split; [now right | repeat constructor]]].
        unfold UpdateCRL, bind, ListUsers. fold (listUsersRequest r).
        fold (getCRLRequest r). rewrite Hu, Hl, Hg, He. cbn [snd ret]. now ev_norm.
      * assert (Hr : reaches_diff r w crl out w2
                       (EvListUsers (listUsersRequest r) None
                          :: ev2 ++ ev3 ++ [EvExport (ClientVPNEndpointID r) None])).
        { exists users, w2, ev2, gerr, w2, ev3, [EvExport (ClientVPNEndpointID r) None].
          repeat split; assumption. }
        assert (Hshape : forall (b : list byte * error) wb tail',
                   Forall (fun ev => is_gateway ev || is_log ev = true) tail' ->
                   exists a w' err0 ev2' ev3' tail,
                     Returned b wb
                       ((EvListUsers (listUsersRequest r) None
                           :: ev2 ++ ev3 ++ [EvExport (ClientVPNEndpointID r) None])
                          ++ tail')
                     = Returned a w'
                         (EvListUsers (listUsersRequest r) err0 :: ev2' ++ ev3' ++ tail) /\
                     Forall (fun ev => is_revoke ev = true) ev2' /\
                     (ev3' = [] \/
                      (exists e, ev3' = [EvRawRequest (pemRequest (VaultPKIPath r)) (Some e)]) \/
                      (exists rerr,
                          ev3' = [EvRawRequest (pemRequest (VaultPKIPath r)) None;
                                  EvReadAll rerr; EvBodyClose])) /\
                     Forall (fun ev => is_gateway ev || is_log ev = true) tail).
        { intros b wb tail' Ht.
          exists b, wb, None, ev2, ev3, (EvExport (ClientVPNEndpointID r) None :: tail').
          split; [now ev_norm|]. split; [exact Hev2|]. split; [now right|].
          now constructor. }
        rewrite (UpdateCRL_at_diff _ _ _ _ _ _ Hr). cbn zeta.
        destruct (CertificateRevocationList out) as [installed|].
        -- destruct (installed =? string_of_bytes crl)%string;
             [apply Hshape; repeat constructor|].
           destruct (cvpn_import_error w2 (ClientVPNEndpointID r) (string_of_bytes crl));
             apply Hshape; repeat constructor.
        -- destruct (cvpn_import_error w2 (ClientVPNEndpointID r) (string_of_bytes crl));
             apply Hshape; repeat constructor.
Qed.

(** For a kind of call that only [GetCRL] makes, the calls of that kind in
    a run of [UpdateCRL] are those of its [GetCRL]. *)
Lemma filter_UpdateCRL_calls (p : Event -> bool) lreq err0 ev2 ev3 tail :
  Forall (fun ev => is_revoke ev = true) ev2 ->
  Forall (fun ev => is_gateway ev || is_log ev = true) tail ->
  (forall ev, is_revoke ev = true -> p ev = false) ->
  (forall ev, is_gateway ev || is_log ev = true -> p ev = false) ->
  p (EvListUsers lreq err0) = false ->
  filter p (EvListUsers lreq err0 :: ev2 ++ ev3 ++ tail) = filter p ev3.
Proof.
  intros H2 Ht Hp2 Hpt Hl. cbn [filter]. rewrite Hl, !filter_app.
  rewrite (revokes_only_filter p ev2 H2 Hp2).
  assert (Htail : filter p tail = []).
  { induction Ht as [|ev l Hx _ IH]; [reflexivity|].
    cbn [filter]. now rewrite (Hpt ev Hx). }
  rewrite Htail. cbn [app]. apply app_nil_r.
Qed.

(** Reads and closes of a run of [UpdateCRL] against the answered
    requests. *)
Lemma UpdateCRL_closes_bodies r w :
  List.length (filter is_answered (events (UpdateCRL r w))) <= 1 /\
  List.length (filter is_read (events (UpdateCRL r w)))
  = List.length (filter is_answered (events (UpdateCRL r w))) /\
  List.length (filter is_close (events (UpdateCRL r w)))
  = List.length (filter is_answered (events (UpdateCRL r w))).
Proof.
  destruct (UpdateCRL_calls r w)
    as (a & w' & err0 & ev2 & ev3 & tail & E & H2 & H3 & Ht).
  rewrite E. cbn [events].
  rewrite !(filter_UpdateCRL_calls _ _ _ _ _ _ H2 Ht);
    try reflexivity; try (now intros []).
  destruct H3 as [->|[(e & ->)|(rerr & ->)]]; cbn; lia.
Qed.

(** X9 - [UpdateCRL] handles the response of its [RawRequest] call with
    care: in every run, however it ends, at most one [RawRequest] call
    hands back a response, and the bodies read and the bodies closed are
    as many as these responses: the response of the CRL request is read
    once and closed once, and nothing is read or closed when the request
    failed or was never sent.  (The enumeration and the revoke calls hand
    no response body to [crl.go] and are not counted.) *)
Theorem UpdateCRL_closes_what_it_opens r w :
  let evs := events (UpdateCRL r w) in
  List.length (filter is_answered evs) <= 1 /\
  List.length (filter is_read evs) = List.length (filter is_answered evs) /\
  List.length (filter is_close evs) = List.length (filter is_answered evs).
Proof. exact (UpdateCRL_closes_bodies r w). Qed.

(** *** [RotateCRL] *)

(** [RotateCRL] written out over [UpdateCRL]. *)
Lemma RotateCRL_run r w :
  RotateCRL r w =
  match vault_request_error w (rotateRequest (rc_VaultPKIPath r)) with
  | Some e =>
      Returned (Some e) w [EvRawRequest (rotateRequest (rc_VaultPKIPath r)) (Some e)]
  | None =>
      match UpdateCRL (updateRequest r) (rotated w) with
      | Returned (_, err) w2 ev2 =>
          Returned err w2 (EvRawRequest (rotateRequest (rc_VaultPKIPath r)) None :: ev2)
      | Panicked w2 ev2 =>
          Panicked w2 (EvRawRequest (rotateRequest (rc_VaultPKIPath r)) None :: ev2)
      end
  end.
Proof.
  unfold RotateCRL, bind, RawRequest.
  fold (rotateRequest (rc_VaultPKIPath r)); fold (updateRequest r).
  destruct (vault_request_error w (rotateRequest (rc_VaultPKIPath r))); [reflexivity|].
  rewrite is_rotate_rotate. fold (rotated w).
  destruct (UpdateCRL (updateRequest r) (rotated w)) as [[crl [e|]] w2 ev2|w2 ev2];
    cbn [ret]; now ev_norm.
Qed.

(** X10 - the response of the rotate request is dropped as it is: when the
    PKI mount answers the rotate request, [RotateCRL] ends with one more
    answered request than bodies closed, whatever [UpdateCRL] does
    afterwards; every body that was read was closed. *)
Theorem RotateCRL_leaves_rotate_response_open r w :
  vault_request_error w (rotateRequest (rc_VaultPKIPath r)) = None ->
  let evs := events (RotateCRL r w) in
  List.length (filter is_answered evs) = S (List.length (filter is_close evs)) /\
  List.length (filter is_read evs) = List.length (filter is_close evs).
Proof.
  intros Hok. rewrite RotateCRL_run, Hok.
  destruct (UpdateCRL_closes_bodies (updateRequest r) (rotated w)) as (_ & Hread & Hclose).
  destruct (UpdateCRL (updateRequest r) (rotated w)) as [[crl err] w2 ev2|w2 ev2];
    cbn [events] in *; cbn [filter is_answered is_close is_read List.length];
    now rewrite Hread, Hclose.
Qed.

Lemma RotateCRL_leaves_rotate_response_open_witness :
  List.length (filter is_answered (events (RotateCRL rotate0 world0))) = 2 /\
  List.length (filter is_close (events (RotateCRL rotate0 world0))) = 1.
Proof.
  destruct (RotateCRL_leaves_rotate_response_open rotate0 world0 eq_refl) as [Ha _].
  split; [|reflexivity]. rewrite Ha. reflexivity.
Defined.


